(** * capmf_scrape: the normalisation logic of the four scraping scripts

    A shallow embedding of the data-shaping code of
    [MARPOL_Annex6_pdf.py], [ECT_scraping.py], [LVC_pdf_scraping.py] and
    [DRR_subindicators.py], and the properties of the specification that
    are about it.

    Conventions.
    - A pandas table is a [DataFrame]: the column labels in order and one
      record per row, a finite map from label to value.  A label missing
      from a record is a missing cell (NaN / None / NaT).
    - Python strings are [string]s holding their UTF-8 bytes; comparing
      them byte by byte is comparing them by code point, as Python does.
    - Python integers are [Z].
    - A Python exception is a value of [exn]; code that may raise returns
      a [result].
    - pandas, the browser driver and the PDF reader are libraries, not code
      of this repository.  Where a script calls a parser of pandas on free
      text, the parser is a parameter of the embedding, and the theorems
      hold for every parser. *)

From stdpp Require Import gmap strings list sorting.
From Stdlib Require Import ZArith String Ascii.

Open Scope string_scope.
Open Scope list_scope.
Open Scope Z_scope.

(** ** Values, tables, exceptions *)

Inductive value :=
| VStr (s : string)
| VInt (z : Z)
| VYears (l : list Z).

#[global] Instance value_eq_dec : EqDecision value.
Proof. solve_decision. Defined.

Record DataFrame := mkDF {
  columns : list string;
  rows : list (gmap string value)
}.

Inductive exn :=
| NameError (name : string)
| ValueError
| IndexError
| KeyError (label : string)
| IntCastingNaNError.

Inductive result (A : Type) :=
| Ok (a : A)
| Raise (e : exn).
Arguments Ok {A} a.
Arguments Raise {A} e.

#[global] Instance result_ret : MRet result := fun A a => Ok a.
#[global] Instance result_bind : MBind result := fun A B k m =>
  match m with
  | Ok a => k a
  | Raise e => Raise e
  end.

(** Reading and writing the cells of a table.  Writing a missing value
    removes the cell from the record. *)
Definition column (label : string) (df : DataFrame) : list (option value) :=
  (fun r => r !! label) <$> rows df.

Definition set_cell (label : string) (cell : option value)
    (r : gmap string value) : gmap string value :=
  match cell with
  | Some v => <[label := v]> r
  | None => delete label r
  end.

Definition set_column (label : string) (col : list (option value))
    (df : DataFrame) : DataFrame :=
  mkDF (columns df) (zip_with (set_cell label) col (rows df)).

(** [pd.concat([df1, df2], ignore_index=True)]: the rows of both, under
    the columns of the first followed by the new columns of the second. *)
Definition concat (df1 df2 : DataFrame) : DataFrame :=
  mkDF (columns df1 ++ list_difference (columns df2) (columns df1))
       (rows df1 ++ rows df2).

(** A sheet of a workbook: a table written from a [DataFrame], header row
    first, or text written cell by cell. *)
Inductive Sheet :=
| Table (title : string) (header : list string)
        (body : list (list (option value)))
| Text (title : string) (lines : list string).

(** [df.to_excel(writer, sheet_name=..., index=False)], and the rows that
    [dataframe_to_rows(df, index=False, header=True)] yields: the column
    labels, then the cells of each row under them. *)
Definition to_excel (df : DataFrame) (sheet_name : string) : Sheet :=
  Table sheet_name (columns df)
        ((fun r : gmap string value => (fun c => r !! c) <$> columns df)
           <$> rows df).

(** A data sheet of a table: the header row is the table's columns, in
    their order. *)
Definition has_data_sheet (df : DataFrame) (wb : list Sheet) : Prop :=
  exists title body, Table title (columns df) body ∈ wb.

(** A sheet of documentation with some text in it. *)
Definition has_readme_sheet (wb : list Sheet) : Prop :=
  exists title lines line,
    Text title lines ∈ wb /\ line ∈ lines /\ line <> "".

(** The line feed of Python's ["\n"]. *)
Definition nl : string := String "010"%char EmptyString.

(** [df.empty]: no row, or no column. *)
Definition is_empty (df : DataFrame) : bool :=
  match rows df, columns df with
  | [], _ | _, [] => true
  | _, _ => false
  end.

(** [pd.concat(frames, ignore_index=True)]; an empty list raises
    [ValueError] ("No objects to concatenate"). *)
Definition pd_concat (frames : list DataFrame) : result DataFrame :=
  match frames with
  | [] => Raise ValueError
  | df :: frames' => Ok (foldl concat df frames')
  end.

(** Programs that drive a world of type [W] and may raise. *)
Definition prog (W A : Type) : Type := W -> result A * W.

#[global] Instance prog_ret {W} : MRet (prog W) := fun A a w => (Ok a, w).
#[global] Instance prog_bind {W} : MBind (prog W) := fun A B k m w =>
  match m w with
  | (Ok a, w') => k a w'
  | (Raise e, w') => (Raise e, w')
  end.

(** A step that only changes the world, and a computation that only may
    raise. *)
Definition act {W} (f : W -> W) : prog W unit := fun w => (Ok tt, f w).
Definition lift {W A} (r : result A) : prog W A := fun w => (r, w).

(** Python's [range(lo, hi)]. *)
Definition range (lo hi : Z) : list Z := seqZ lo (hi - lo).

(** ** Python strings *)

Module Py.

(** The ASCII characters for which [str.isspace] holds. *)
Definition is_space (c : ascii) : bool :=
  let n := nat_of_ascii c in
  ((9 <=? n) && (n <=? 13) || (28 <=? n) && (n <=? 32))%nat.

Definition is_digit (c : ascii) : bool :=
  let n := nat_of_ascii c in ((48 <=? n) && (n <=? 57))%nat.

Definition digit_val (c : ascii) : Z := Z.of_nat (nat_of_ascii c) - 48.

Fixpoint lstrip (s : string) : string :=
  match s with
  | String c s' => if is_space c then lstrip s' else s
  | EmptyString => EmptyString
  end.

Fixpoint rstrip (s : string) : string :=
  match s with
  | String c s' =>
      match rstrip s' with
      | EmptyString => if is_space c then EmptyString else String c EmptyString
      | t => String c t
      end
  | EmptyString => EmptyString
  end.

(** [s.strip()] *)
Definition strip (s : string) : string := rstrip (lstrip s).

(** [s] with the leading [p] removed, when [s] starts with [p]. *)
Fixpoint strip_prefix (p s : string) : option string :=
  match p, s with
  | EmptyString, _ => Some s
  | String a p', String b s' =>
      if Ascii.eqb a b then strip_prefix p' s' else None
  | String _ _, EmptyString => None
  end.

(** The text before and after the first occurrence of [sep] in [s]. *)
Fixpoint partition (sep s : string) : option (string * string) :=
  match strip_prefix sep s with
  | Some rest => Some (EmptyString, rest)
  | None =>
      match s with
      | EmptyString => None
      | String c s' =>
          match partition sep s' with
          | Some (before, after) => Some (String c before, after)
          | None => None
          end
      end
  end.

(** [sep in s] *)
Definition contains (sep s : string) : bool :=
  match partition sep s with Some _ => true | None => false end.

(** [s.split(sep)]: an empty separator raises [ValueError]; the pieces
    between the occurrences of [sep], found from the left, otherwise.  The
    recursion is on [fuel], and [String.length s + 1] is enough of it. *)
Fixpoint split_pieces (fuel : nat) (sep s : string) : list string :=
  match fuel with
  | O => [s]
  | S fuel' =>
      match partition sep s with
      | Some (before, after) => before :: split_pieces fuel' sep after
      | None => [s]
      end
  end.

Definition split (s sep : string) : result (list string) :=
  match sep with
  | EmptyString => Raise ValueError
  | _ => Ok (split_pieces (S (String.length s)) sep s)
  end.

(** [l[i]] *)
Definition index {A} (l : list A) (i : nat) : result A :=
  match l !! i with
  | Some x => Ok x
  | None => Raise IndexError
  end.

(** [try: body except (IndexError, ValueError): handler] *)
Definition try_except_index_value {A} (body : result A) (handler : result A)
  : result A :=
  match body with
  | Raise IndexError | Raise ValueError => handler
  | other => other
  end.

Definition to_lower (c : ascii) : ascii :=
  let n := nat_of_ascii c in
  if ((65 <=? n) && (n <=? 90))%nat then ascii_of_nat (n + 32) else c.

Fixpoint lower (s : string) : string :=
  match s with
  | String c s' => String (to_lower c) (lower s')
  | EmptyString => EmptyString
  end.

(** [s.replace('\n', '')], and [re.sub(r'\n', '', s)]. *)
Fixpoint remove_newlines (s : string) : string :=
  match s with
  | EmptyString => EmptyString
  | String c s' =>
      if Ascii.eqb c "010"%char then remove_newlines s'
      else String c (remove_newlines s')
  end.

(** [re.sub(r' +', ' ', s)]: every run of spaces becomes one space. *)
Fixpoint squeeze_from (in_run : bool) (s : string) : string :=
  match s with
  | EmptyString => EmptyString
  | String c s' =>
      if Ascii.eqb c " "%char
      then (if in_run then squeeze_from true s'
            else String c (squeeze_from true s'))
      else String c (squeeze_from false s')
  end.

Definition squeeze_spaces : string -> string := squeeze_from false.

(** [s[n:]] *)
Fixpoint drop (n : nat) (s : string) : string :=
  match n, s with
  | O, _ => s
  | S n', String _ s' => drop n' s'
  | S _, EmptyString => EmptyString
  end.

End Py.

(** ** The pandas date readers

    The scripts call [pd.to_datetime] in three ways.  Each is a parameter
    of the code that uses it; the definitions of this module are the
    readers for plain ASCII input, and instantiate the parameters. *)

Module Pandas.

(** What [pd.to_datetime] returns: a time stamp or [NaT].  A reader of one
    text has type [string -> option stamp]: on a text it cannot read it
    raises [ValueError] (for a date out of range the subclass
    [OutOfBoundsDatetime]), which is [None] here. *)
Inductive stamp :=
| Timestamp (year month day : Z)
| NaT.

Definition or_value_error {A} (o : option A) : result A :=
  match o with
  | Some a => Ok a
  | None => Raise ValueError
  end.

Definition is_leap (y : Z) : bool :=
  (y mod 4 =? 0) && (negb (y mod 100 =? 0) || (y mod 400 =? 0)).

Definition days_in_month (y m : Z) : Z :=
  if m =? 2 then (if is_leap y then 29 else 28)
  else if (m =? 4) || (m =? 6) || (m =? 9) || (m =? 11) then 30
  else 31.

(** The range of a nanosecond time stamp, to the day: from 1677-09-22 to
    2262-04-11.  A date outside it raises [OutOfBoundsDatetime], a
    [ValueError]. *)
Definition in_bounds (y m d : Z) : bool :=
  let n := y * 10000 + m * 100 + d in
  (16770922 <=? n) && (n <=? 22620411).

Definition check_date (y m d : Z) : option stamp :=
  if (1 <=? m) && (m <=? 12) && (1 <=? d) && (d <=? days_in_month y m)
     && in_bounds y m d
  then Some (Timestamp y m d)
  else None.

Definition month_names : list (string * Z) :=
  [("september", 9); ("february", 2); ("november", 11); ("december", 12);
   ("january", 1); ("october", 10); ("august", 8); ("march", 3);
   ("april", 4); ("june", 6); ("july", 7); ("may", 5)].

(** The texts that every reader takes for a missing date. *)
Definition nat_strings : list string :=
  ["NaT"; "nat"; "NAT"; "nan"; "NaN"; "NAN"].

Definition is_nat_string (s : string) : bool :=
  existsb (String.eqb s) nat_strings.

(** [%d]: [3[0-1]|[1-2]\d|0[1-9]|[1-9]| [1-9]]. *)
Definition read_day (s : string) : option (Z * string) :=
  let one :=
    match s with
    | String a rest =>
        if Py.is_digit a && negb (Py.digit_val a =? 0)
        then Some (Py.digit_val a, rest)
        else
          match rest with
          | String b rest' =>
              if Ascii.eqb a " "%char && Py.is_digit b
                 && negb (Py.digit_val b =? 0)
              then Some (Py.digit_val b, rest')
              else None
          | EmptyString => None
          end
    | EmptyString => None
    end in
  match s with
  | String a (String b rest) =>
      let v := Py.digit_val a * 10 + Py.digit_val b in
      if Py.is_digit a && Py.is_digit b && (1 <=? v) && (v <=? 31)
      then Some (v, rest)
      else one
  | _ => one
  end.

(** [\s+] *)
Definition read_spaces (s : string) : option string :=
  match s with
  | String c s' => if Py.is_space c then Some (Py.lstrip s') else None
  | EmptyString => None
  end.

(** [%B]: a full month name, in any case. *)
Fixpoint read_month_in (names : list (string * Z)) (s : string)
  : option (Z * string) :=
  match names with
  | [] => None
  | (name, m) :: names' =>
      match Py.strip_prefix name (Py.lower s) with
      | Some _ => Some (m, Py.drop (String.length name) s)
      | None => read_month_in names' s
      end
  end.

Definition read_month : string -> option (Z * string) :=
  read_month_in month_names.

(** [%Y]: [\d\d\d\d]. *)
Definition read_year (s : string) : option (Z * string) :=
  match s with
  | String a (String b (String c (String d rest))) =>
      if Py.is_digit a && Py.is_digit b && Py.is_digit c && Py.is_digit d
      then Some (((Py.digit_val a * 10 + Py.digit_val b) * 10
                  + Py.digit_val c) * 10 + Py.digit_val d, rest)
      else None
  | _ => None
  end.

(** [pd.to_datetime(s, format='%d %B %Y')]: a NaT word is [NaT], and so
    is the empty text (since pandas 2.0; earlier releases raised on it); a
    text that matches the format in full and is a date of the calendar is
    its time stamp; on anything else pandas raises. *)
Definition to_datetime_dBY (s : string) : option stamp :=
  if String.eqb s "" || is_nat_string s then Some NaT
  else
    '(d, s1) ← read_day s;
    s2 ← read_spaces s1;
    '(m, s3) ← read_month s2;
    s4 ← read_spaces s3;
    '(y, s5) ← read_year s4;
    if String.eqb s5 "" then check_date y m d else None.

(** Two digits. *)
Definition read_2 (s : string) : option (Z * string) :=
  match s with
  | String a (String b rest) =>
      if Py.is_digit a && Py.is_digit b
      then Some (Py.digit_val a * 10 + Py.digit_val b, rest)
      else None
  | _ => None
  end.

(** The time stamp of a text [YYYY-MM-DD] that is a date of the calendar;
    [pd.to_datetime(s)] returns it. *)
Definition iso_date (s : string) : option stamp :=
  '(y, s1) ← read_year s;
  s2 ← Py.strip_prefix "-" s1;
  '(m, s3) ← read_2 s2;
  s4 ← Py.strip_prefix "-" s3;
  '(d, s5) ← read_2 s4;
  if String.eqb s5 "" then check_date y m d else None.

(** [.year] of a time stamp; [NaT.year] is NaN. *)
Definition stamp_year (t : stamp) : option Z :=
  match t with
  | Timestamp y _ _ => Some y
  | NaT => None
  end.

(** [pd.to_datetime(s, errors='coerce')] then [.dt.year], for texts in
    the form [%d %B %Y]: a text that does not parse is NaT. *)
Definition coerce_year_dBY (s : string) : option Z :=
  to_datetime_dBY s ≫= stamp_year.

End Pandas.

(** ** MARPOL_Annex6_pdf.py *)

Module Marpol.

(** One row of the combined table after [clean_combined_data] and
    [add_manual_data]: [Country] is text ([fillna('')] on line 35), the two
    date cells are text or missing. *)
Record raw_row := mkRaw {
  raw_Country : string;
  raw_Signature : option string;
  raw_EntryintoForce : option string
}.

(** The same row inside the panel: [temp['Year'] = year]. *)
Record panel_row := mkPanel {
  p_Country : string;
  p_Signature : option string;
  p_EntryintoForce : option string;
  p_Year : Z
}.

(** The panel after lines 85-87: the date cells hold a year or are
    missing. *)
Record dated_row := mkDated {
  d_Country : string;
  d_Signature : option Z;
  d_EntryintoForce : option Z;
  d_Year : Z
}.

(** The panel once the two indicator columns have been added. *)
Record wide_row := mkWide {
  Country : string;
  Signature : option Z;
  EntryintoForce : option Z;
  Year : Z;
  marpol_sign : Z;
  marpol_effect : Z
}.

(** [generate_panel_data]: one copy of the table per year of
    [range(1990, 2024)], concatenated in that order. *)
Definition with_year (year : Z) (r : raw_row) : panel_row :=
  mkPanel (raw_Country r) (raw_Signature r) (raw_EntryintoForce r) year.

Definition generate_panel_data (combined : list raw_row) : list panel_row :=
  year ← range 1990 2024; with_year year <$> combined.

(** [(a <= b).astype(int)] on a column that may hold NaN: a comparison
    with NaN is False. *)
Definition le_indicator (a : option Z) (b : Z) : Z :=
  match a with
  | Some x => if x <=? b then 1 else 0
  | None => 0
  end.

(** The order of [sort_values(by=['Country', 'Year'])]. *)
Definition key_leb (a b : wide_row) : bool :=
  match String.compare (Country a) (Country b) with
  | Lt => true
  | Eq => Year a <=? Year b
  | Gt => false
  end.

Definition key_le (a b : wide_row) : Prop := key_leb a b = true.

(** [sort_values] on several keys is a stable sort; every stable sort is
    the same function, written here as an insertion sort. *)
Fixpoint insert_sorted (x : wide_row) (l : list wide_row) : list wide_row :=
  match l with
  | [] => [x]
  | y :: l' => if key_leb x y then x :: y :: l' else y :: insert_sorted x l'
  end.

Fixpoint sort_values (l : list wide_row) : list wide_row :=
  match l with
  | [] => []
  | x :: l' => insert_sorted x (sort_values l')
  end.

(** Reading a cell of the wide table by its label. *)
Definition wide_get (r : wide_row) (label : string) : option value :=
  if String.eqb label "Country" then Some (VStr (Country r))
  else if String.eqb label "Signature" then VInt <$> Signature r
  else if String.eqb label "EntryintoForce" then VInt <$> EntryintoForce r
  else if String.eqb label "Year" then Some (VInt (Year r))
  else if String.eqb label "marpol_sign" then Some (VInt (marpol_sign r))
  else if String.eqb label "marpol_effect" then Some (VInt (marpol_effect r))
  else None.

(** [panel_data[[...]]]: keep the listed columns, in the listed order. *)
Definition select_row (labels : list string) (r : wide_row) : gmap string value :=
  list_to_map (omap (fun c => pair c <$> wide_get r c) labels).

Definition select (labels : list string) (l : list wide_row) : DataFrame :=
  mkDF labels (select_row labels <$> l).

(** The same order read off the records of a [DataFrame]: by the
    [Country] cell, then by the [Year] cell. *)
Definition row_key (r : gmap string value) : option (string * Z) :=
  match r !! "Country", r !! "Year" with
  | Some (VStr c), Some (VInt y) => Some (c, y)
  | _, _ => None
  end.

Definition rows_le (r1 r2 : gmap string value) : Prop :=
  match row_key r1, row_key r2 with
  | Some (c1, y1), Some (c2, y2) =>
      String.compare c1 c2 = Lt \/ (c1 = c2 /\ y1 <= y2)
  | _, _ => False
  end.

(** A cell holding one of the two values of an indicator. *)
Definition is_indicator (c : option value) : Prop :=
  c = Some (VInt 0) \/ c = Some (VInt 1).

(** The columns that [clean_panel_data] keeps. *)
Definition panel_labels : list string :=
  ["Country"; "Year"; "marpol_sign"; "marpol_effect"].

Section CleanPanel.

(** [pd.to_datetime(_, errors='coerce').dt.year] on one text cell: the
    year, or nothing when pandas cannot read a date. *)
Variable to_datetime_year : string -> option Z.

(** Lines 85-87. *)
Definition convert (r : panel_row) : dated_row :=
  mkDated (Py.remove_newlines (p_Country r))
          (p_Signature r ≫= to_datetime_year)
          (p_EntryintoForce r ≫= to_datetime_year)
          (p_Year r).

(** Lines 89-90: the two masked assignments of NaN. *)
Definition clip_effect (r : dated_row) : dated_row :=
  if d_Year r <? 2005
  then mkDated (d_Country r) (d_Signature r) None (d_Year r)
  else r.

Definition clip_sign (r : dated_row) : dated_row :=
  if d_Year r <? 1997
  then mkDated (d_Country r) None (d_EntryintoForce r) (d_Year r)
  else r.

(** Lines 92-93. *)
Definition indicators (r : dated_row) : wide_row :=
  mkWide (d_Country r) (d_Signature r) (d_EntryintoForce r) (d_Year r)
         (le_indicator (d_Signature r) (d_Year r))
         (le_indicator (d_EntryintoForce r) (d_Year r)).

Definition clean_panel_data (panel_data : list panel_row) : DataFrame :=
  let panel_data := convert <$> panel_data in
  let panel_data := clip_effect <$> panel_data in
  let panel_data := clip_sign <$> panel_data in
  let panel_data := indicators <$> panel_data in
  let panel_data := sort_values panel_data in
  select ["Country"; "Year"; "marpol_sign"; "marpol_effect"] panel_data.

(** What one panel row becomes, before the sort. *)
Definition cleaned (p : panel_row) : wide_row :=
  indicators (clip_sign (clip_effect (convert p))).

(** The combined table as a [DataFrame], for the sheet of raw data. *)
Definition raw_record (r : raw_row) : gmap string value :=
  set_cell "EntryintoForce" (VStr <$> raw_EntryintoForce r)
    (set_cell "Signature" (VStr <$> raw_Signature r)
       {[ "Country" := VStr (raw_Country r) ]}).

Definition raw_frame (combined : list raw_row) : DataFrame :=
  mkDF ["Country"; "Signature"; "EntryintoForce"] (raw_record <$> combined).

(** [save_to_excel], lines 100-115: the workbook it writes. *)
Definition save_to_excel (combined : list raw_row) : list Sheet :=
  let raw := to_excel (raw_frame combined) "raw data" in
  let panel_data_full := generate_panel_data combined in
  let panel_data_cleaned := clean_panel_data panel_data_full in
  [raw; to_excel panel_data_cleaned "panel data"].

End CleanPanel.

(** A record of the cleaned panel. *)
Definition out_row (country : string) (year sign effect : Z)
  : gmap string value :=
  list_to_map [("Country", VStr country); ("Year", VInt year);
               ("marpol_sign", VInt sign); ("marpol_effect", VInt effect)].

(** The entity of the specification's example: signed in 1999, in force
    in 2000. *)
Definition example_entity : raw_row :=
  mkRaw "Liberia" (Some "26 September 1999") (Some "19 May 2000").

End Marpol.

(** ** LVC_pdf_scraping.py *)

Module Lvc.

(** *** [extract_valid_years]

    The pattern [\b\d{4}\b] reads characters through two classes of the
    regular-expression engine: the word characters ([\w]) and the decimal
    digits ([\d]) with their values.  The text is a list of characters of
    any alphabet with these two classes. *)
Section ExtractValidYears.

Context {char : Type}.
Variable is_word : char -> bool.
Variable digit_value : char -> option Z.

Definition is_digit (c : char) : bool :=
  match digit_value c with Some _ => true | None => false end.

Definition word_at (c : option char) : bool :=
  match c with Some c => is_word c | None => false end.

(** [\b] between two neighbours; the ends of the text count as
    non-word. *)
Definition boundary (before after : option char) : bool :=
  xorb (word_at before) (word_at after).

(** Does [\b\d{4}\b] match at the start of [s], which follows [prev]? *)
Definition matches_here (prev : option char) (s : list char) : bool :=
  match s with
  | d1 :: d2 :: d3 :: d4 :: rest =>
      boundary prev (Some d1)
      && is_digit d1 && is_digit d2 && is_digit d3 && is_digit d4
      && boundary (Some d4) (head rest)
  | _ => false
  end.

(** [re.findall]: scan from the left; after a match the scan resumes at
    its end, so the next [skip] characters are passed over. *)
Fixpoint findall (skip : nat) (prev : option char) (s : list char)
  : list (list char) :=
  match s with
  | [] => []
  | c :: s' =>
      match skip with
      | S k => findall k (Some c) s'
      | O =>
          if matches_here prev s
          then take 4 s :: findall 3 (Some c) s'
          else findall 0 (Some c) s'
      end
  end.

(** [int(year)] *)
Definition int_of (digits : list char) : Z :=
  foldl (fun acc c => acc * 10 + default 0 (digit_value c)) 0 digits.

Definition extract_valid_years (text : list char) : option (list Z) :=
  let matches := findall 0 None text in
  let valid_years :=
    filter (fun y => 1800 <= y <= 2025) (int_of <$> matches) in
  match valid_years with
  | [] => None
  | _ => Some valid_years
  end.

(** The specification's reading: the standalone four-digit numbers of the
    text, position by position. *)
Fixpoint standalone_numbers (prev : option char) (s : list char) : list Z :=
  match s with
  | [] => []
  | c :: s' =>
      (if matches_here prev s then [int_of (take 4 s)] else [])
      ++ standalone_numbers (Some c) s'
  end.

Definition standalone_years (text : list char) : list Z :=
  filter (fun y => 1800 <= y <= 2025) (standalone_numbers None text).

(** While the scan passes over the rest of a match, the character before
    and the characters passed over are digits. *)
Definition inside_match (skip : nat) (prev : option char) (s : list char)
  : Prop :=
  skip = 0%nat \/
  ((exists c, prev = Some c /\ is_digit c = true) /\
   Forall (fun c => is_digit c = true) (take skip s)).

End ExtractValidYears.

(** The two classes on ASCII text. *)
Definition ascii_is_word (c : ascii) : bool :=
  let n := nat_of_ascii c in
  (Py.is_digit c || (65 <=? n) && (n <=? 90) || (97 <=? n) && (n <=? 122)
   || (n =? 95))%nat.

Definition ascii_digit_value (c : ascii) : option Z :=
  if Py.is_digit c then Some (Py.digit_val c) else None.

Definition extract_valid_years_ascii (text : string) : option (list Z) :=
  extract_valid_years ascii_is_word ascii_digit_value
                      (list_ascii_of_string text).

(** *** The cleaning of the instrument column (lines 164-167) *)

Definition instrument : string := "Instrument (OECD-Lincoln taxonomy)".

(** [df.replace(pattern, repl, regex=True)]: every text cell is rewritten,
    other cells are kept. *)
Definition replace_regex (f : string -> string) (df : DataFrame) : DataFrame :=
  mkDF (columns df)
       (fmap (M := gmap string)
             (fun v => match v with VStr s => VStr (f s) | _ => v end)
          <$> rows df).

(** [column.replace('', pd.NA)] *)
Definition blank_to_na (cell : option value) : option value :=
  match cell with
  | Some (VStr EmptyString) => None
  | _ => cell
  end.

(** [column.fillna(method='ffill')]: a missing cell takes the last value
    seen above it, if there is one. *)
Fixpoint ffill_from {A} (last : option A) (col : list (option A))
  : list (option A) :=
  match col with
  | [] => []
  | cell :: col' =>
      let cell' := match cell with Some _ => cell | None => last end in
      cell' :: ffill_from cell' col'
  end.

Definition ffill {A} : list (option A) -> list (option A) := ffill_from None.

(** The last value that is not missing in a column, if it has one. *)
Definition last_seen_from {A} (last : option A) (col : list (option A))
  : option A :=
  foldl (fun acc cell => match cell with Some _ => cell | None => acc end)
        last col.

Definition last_seen {A} : list (option A) -> option A := last_seen_from None.

(** Lines 164-167; the two in-place calls on the selected column write
    through to the table. *)
Definition clean_instrument (combined_df : DataFrame) : DataFrame :=
  let combined_df := replace_regex Py.remove_newlines combined_df in
  let combined_df := replace_regex Py.squeeze_spaces combined_df in
  let col := blank_to_na <$> column instrument combined_df in
  let col := ffill col in
  set_column instrument col combined_df.

(** The [ExcelWriter] block, lines 180-182: the sheet of the subset is
    commented out. *)
Definition export (combined_df : DataFrame) : list Sheet :=
  [to_excel combined_df "Combined"].

(** A table whose instrument column is the sequence of the
    specification's example. *)
Definition example_frame : DataFrame :=
  mkDF [instrument; "Local name"]
       [ {[ instrument := VStr "Tax"; "Local name" := VStr "Impuesto" ]};
         {[ instrument := VStr ""; "Local name" := VStr "Plusvalia" ]};
         {[ instrument := VStr ""; "Local name" := VStr "" ]};
         {[ instrument := VStr "Fee"; "Local name" := VStr "Tasa" ]};
         {[ instrument := VStr ""; "Local name" := VStr "Derecho" ]} ].

End Lvc.

(** ** ECT_scraping.py *)

Module Ect.

(** What [extract_date] can return: [None], the float NaN, or an
    integer. *)
Inductive pyval :=
| PyNone
| PyNaN
| PyInt (z : Z).

(** [t.year]; the year of [NaT] is NaN. *)
Definition year_attr (t : Pandas.stamp) : pyval :=
  match t with
  | Pandas.Timestamp y _ _ => PyInt y
  | Pandas.NaT => PyNaN
  end.

Section ExtractDate.

(** [pd.to_datetime(_, format='%d %B %Y')] *)
Variable to_datetime_format : string -> option Pandas.stamp.

(** [text] is a cell of the scraped table: a text, or [None] when the page
    had fewer than four dates. *)
Definition extract_date (text : option string) (prefix : string)
  : result pyval :=
  match text with
  | None => Ok PyNone
  | Some text =>
      if Py.contains prefix text
      then
        Py.try_except_index_value
          (pieces ← Py.split text prefix;
           piece ← Py.index pieces 1;
           t ← Pandas.or_value_error (to_datetime_format (Py.strip piece));
           Ok (year_attr t))
          (Ok PyNone)
      else Ok PyNone
  end.

End ExtractDate.

(** The hand-made table of withdrawals, lines 17-54. *)
Definition withdrawal_data : list (string * list (string * string)) :=
  [ ("Italy",
      [("date_withdrawal_notification", "2014-12-31");
       ("date_withdrawal_effect", "2016-01-01");
       ("date_ratification", "1997-12-05")]);
    ("France",
      [("date_withdrawal_notification", "2022-12-07");
       ("date_withdrawal_effect", "2023-12-08");
       ("date_ratification", "1999-09-01")]);
    ("Germany",
      [("date_withdrawal_notification", "2022-12-19");
       ("date_withdrawal_effect", "2023-12-20");
       ("date_ratification", "1997-03-14")]);
    ("Poland",
      [("date_withdrawal_notification", "2022-12-28");
       ("date_withdrawal_effect", "2023-12-29");
       ("date_ratification", "2000-11-24")]);
    ("Luxembourg",
      [("date_withdrawal_notification", "2023-06-16");
       ("date_withdrawal_effect", "2024-06-17")]);
    ("European Union and Euratom",
      [("date_withdrawal_notification", "2024-05-30");
       ("date_withdrawal_effect", "2025-05-30")]);
    ("Spain",
      [("date_withdrawal_notification", "2024-04-16");
       ("date_withdrawal_effect", "2025-04-17")]);
    ("United Kingdom",
      [("date_withdrawal_notification", "2024-04-26");
       ("date_withdrawal_effect", "2025-04-27")]) ].

(** [df['Country'] == country], on one record. *)
Definition country_is (country : string) (r : gmap string value) : bool :=
  match r !! "Country" with
  | Some (VStr s) => String.eqb s country
  | _ => false
  end.

(** [df.loc[df['Country'] == country, key] = cell]: a label that the table
    does not have yet becomes its last column. *)
Definition assign_where (country key : string) (cell : option value)
    (df : DataFrame) : DataFrame :=
  mkDF (if bool_decide (key ∈ columns df) then columns df
        else columns df ++ [key])
       ((fun r => if country_is country r then set_cell key cell r else r)
          <$> rows df).

(** The record [{'Country': country, **cells}]. *)
Definition apply_cells (cells : list (string * option value))
    (r : gmap string value) : gmap string value :=
  foldl (fun r kc => set_cell kc.1 kc.2 r) r cells.

Definition new_row (country : string) (cells : list (string * option value))
  : gmap string value :=
  apply_cells cells {[ "Country" := VStr country ]}.

Section Withdrawals.

(** [pd.to_datetime(value)] *)
Variable to_datetime : string -> option Pandas.stamp.

(** [pd.to_datetime(value).year if value != 'N.A.' else value] *)
Definition year_cell (v : string) : result (option value) :=
  if String.eqb v "N.A." then Ok (Some (VStr v))
  else
    t ← Pandas.or_value_error (to_datetime v);
    Ok (VInt <$> Pandas.stamp_year t).

(** The inner loop of lines 163-167. *)
Fixpoint update_fields (country : string) (dates : list (string * string))
    (df : DataFrame) : result DataFrame :=
  match dates with
  | [] => Ok df
  | (key, v) :: dates' =>
      cell ← year_cell v;
      update_fields country dates' (assign_where country key cell df)
  end.

(** The dictionary comprehension of line 169. *)
Fixpoint year_cells (dates : list (string * string))
  : result (list (string * option value)) :=
  match dates with
  | [] => Ok []
  | (key, v) :: dates' =>
      cell ← year_cell v;
      cells ← year_cells dates';
      Ok ((key, cell) :: cells)
  end.

(** One turn of the outer loop. *)
Definition update_country (df : DataFrame)
    (item : string * list (string * string)) : result DataFrame :=
  let '(country, dates) := item in
  if bool_decide ("Country" ∈ columns df)
  then
    if existsb (country_is country) (rows df)
    then update_fields country dates df
    else
      cells ← year_cells dates;
      Ok (concat df (mkDF ("Country" :: list_difference cells.*1 ["Country"])
                          [new_row country cells]))
  else Raise (KeyError "Country").

Fixpoint update_dataframe_withdrawals (df : DataFrame)
    (withdrawal_data : list (string * list (string * string)))
  : result DataFrame :=
  match withdrawal_data with
  | [] => Ok df
  | item :: rest =>
      df' ← update_country df item;
      update_dataframe_withdrawals df' rest
  end.

(** The table of cells that the reader makes of a table of dates. *)
Definition parsed (wd : list (string * list (string * string)))
    (table : list (string * list (string * option value))) : Prop :=
  Forall2 (fun item entry =>
             item.1 = entry.1 /\ year_cells item.2 = Ok entry.2)
          wd table.

End Withdrawals.

(** The years of the hand-made table. *)
Definition withdrawal_years : list (string * list (string * Z)) :=
  [ ("Italy",
      [("date_withdrawal_notification", 2014);
       ("date_withdrawal_effect", 2016);
       ("date_ratification", 1997)]);
    ("France",
      [("date_withdrawal_notification", 2022);
       ("date_withdrawal_effect", 2023);
       ("date_ratification", 1999)]);
    ("Germany",
      [("date_withdrawal_notification", 2022);
       ("date_withdrawal_effect", 2023);
       ("date_ratification", 1997)]);
    ("Poland",
      [("date_withdrawal_notification", 2022);
       ("date_withdrawal_effect", 2023);
       ("date_ratification", 2000)]);
    ("Luxembourg",
      [("date_withdrawal_notification", 2023);
       ("date_withdrawal_effect", 2024)]);
    ("European Union and Euratom",
      [("date_withdrawal_notification", 2024);
       ("date_withdrawal_effect", 2025)]);
    ("Spain",
      [("date_withdrawal_notification", 2024);
       ("date_withdrawal_effect", 2025)]);
    ("United Kingdom",
      [("date_withdrawal_notification", 2024);
       ("date_withdrawal_effect", 2025)]) ].

(** The claim's reading of the update, for a table of cells per country:
    a row of a listed country gets the listed cells, any other row is
    kept; a listed country without a row gets a new row. *)
Definition manual_update
    (table : list (string * list (string * option value)))
    (r : gmap string value) : gmap string value :=
  match find (fun item => country_is item.1 r) table with
  | Some item => apply_cells item.2 r
  | None => r
  end.

Definition appended_rows
    (table : list (string * list (string * option value)))
    (df : DataFrame) : list (gmap string value) :=
  omap (fun item =>
          if existsb (country_is item.1) (rows df) then None
          else Some (new_row item.1 item.2)) table.

Definition cells_of (fields : list (string * Z))
  : list (string * option value) :=
  (fun kv : string * Z => (kv.1, Some (VInt kv.2))) <$> fields.

Definition year_table : list (string * list (string * option value)) :=
  (fun item : string * list (string * Z) => (item.1, cells_of item.2))
    <$> withdrawal_years.

(** Is there a row of the country in the table? *)
Definition has_country (df : DataFrame) (country : string) : bool :=
  existsb (country_is country) (rows df).

(** [add_readme_to_worksheet]: one line per row, in the first column. *)
Definition readme_text : list string :=
    ["This file contains the data scraped from the Energy Charter Treaty website: ";
     "https://www.energychartertreaty.org/treaty/contracting-parties-and-signatories/";
     "Countries Italy, France, Germany, and Poland have already effectively withdrawn from the treaty at the time of the data extraction (July 2024), ";
     "so their withdrawal and signature dates did not appear on the website and were manually added.";
     "The pyhton script used to extract the data and create this file can be found at";
     "\\main.oecd.org\ASgenENV\ENVINFO\BACKUP\STATA\IPAC\CAP\Others\Scraping_Scripts\ECT_scraping.py"].

(** [save_to_excel], lines 196-214: the workbook it saves. *)
Definition save_to_excel (df : DataFrame) : list Sheet :=
  let ws_readme := Text "Readme" readme_text in
  let ws_data := to_excel df "Energy_charter_treaty_2024" in
  [ws_readme; ws_data].

(** A scraped table in which Italy is missing. *)
Definition example_frame : DataFrame :=
  mkDF ["Country"; "Title"; "date_sign"; "date_ratification";
        "date_withdrawal_notification"; "date_withdrawal_effect"]
       [ {[ "Country" := VStr "France"; "Title" := VStr "1994 Energy Charter Treaty";
            "date_sign" := VInt 1994 ]};
         {[ "Country" := VStr "Japan"; "Title" := VStr "1994 Energy Charter Treaty";
            "date_sign" := VInt 1995; "date_ratification" := VInt 2002 ]} ].

End Ect.

(** ** DRR_subindicators.py *)

Module Drr.

(** *** The outer merge of [run_scraping] *)

Definition key_columns : list string := ["Country"; "Year"; "Country_Code"].

(** The cells of a record under the key columns. *)
Definition row_key (r : gmap string value) : list (option value) :=
  (fun c => r !! c) <$> key_columns.

(** A column that both tables have outside the key gets a suffix. *)
Definition label_with_suffix (overlap : list string) (sfx c : string)
  : string :=
  if bool_decide (c ∈ overlap) then c +:+ sfx else c.

Definition with_suffix (overlap : list string) (sfx : string)
    (r : gmap string value) : gmap string value :=
  list_to_map
    ((fun cv : string * value => (label_with_suffix overlap sfx cv.1, cv.2))
       <$> map_to_list r).

Definition matching (k : list (option value))
    (l : list (gmap string value)) : list (gmap string value) :=
  filter (fun r => row_key r = k) l.

(** The rows of the result for one key: the rows of the left with the key
    paired with the rows of the right with the key; a row without a
    partner stands alone, its other columns missing. *)
Definition join_key (lrows rrows : list (gmap string value))
    (k : list (option value)) : list (gmap string value) :=
  match matching k lrows, matching k rrows with
  | [], rs => rs
  | ls, [] => ls
  | ls, rs => l ← ls; r ← rs; [l ∪ r]
  end.

Section Merge.

(** The order in which pandas lists the keys of the result. *)
Variable key_order : list (list (option value)) -> list (list (option value)).

(** [pd.merge(left, right, on=key_columns, how='outer')] on two tables
    that have the key columns. *)
Definition merge_outer (left right : DataFrame) : DataFrame :=
  let overlap :=
    filter (fun c => c ∈ columns right)
           (list_difference (columns left) key_columns) in
  let lrows := with_suffix overlap "_x" <$> rows left in
  let rrows := with_suffix overlap "_y" <$> rows right in
  let keys :=
    key_order (remove_dups ((row_key <$> lrows) ++ (row_key <$> rrows))) in
  mkDF ((label_with_suffix overlap "_x" <$> columns left) ++
        (label_with_suffix overlap "_y"
           <$> list_difference (columns right) key_columns))
       (keys ≫= join_key lrows rrows).

(** A key column that a table lacks raises [KeyError]. *)
Definition merge (left right : DataFrame) : result DataFrame :=
  match filter (fun c => c ∉ columns left \/ c ∉ columns right) key_columns with
  | [] => Ok (merge_outer left right)
  | c :: _ => Raise (KeyError c)
  end.

End Merge.

(** Every cell of a record is under a column of the table. *)
Definition well_formed (df : DataFrame) : Prop :=
  Forall (fun r : gmap string value => dom r ⊆ list_to_set (columns df))
         (rows df).

(** The keys of the rows of a table. *)
Definition keys_of (df : DataFrame) : list (list (option value)) :=
  row_key <$> rows df.

(** *** [run_scraping] *)

(** The ten subindicators, lines 15-16. *)
Definition base_xpath (i : string) : string :=
  "/html/body/sfm-root/sfm-top-image-layout/div/div[3]/sfm-analytics-home/div/div[3]/div[2]/sfm-indicators-with-fields/div/div[2]/div/sfm-dropdown-select/div/ul/li/ul/div/li["
  +:+ i +:+ "]/span".

Definition subindicators_xpaths : list (string * string) :=
  (fun i => ("e1a" +:+ i, base_xpath i))
    <$> ["1"; "2"; "3"; "4"; "5"; "6"; "7"; "8"; "9"; "10"].

Definition second_subindicator_xpath : string := base_xpath "2".

(** The world of the script: the browser with the site behind it, and the
    country codes whose page was requested, in order. *)
Record world (browser : Type) := mkWorld {
  session : browser;
  fetched : list Z
}.
Arguments mkWorld {browser}.
Arguments session {browser}.
Arguments fetched {browser}.

Section Scraping.

Context {browser : Type}.

(** The calls on the driver.  Each helper of the script catches every
    exception, so each is a step of the browser. *)
Variable webdriver_Chrome : browser -> browser.
Variable driver_quit : browser -> browser.
Variable driver_get : Z -> browser -> browser.
Variable click_table_button : browser -> browser.
Variable select_year_2005 : browser -> browser.
Variable select_year_2024 : browser -> browser.
Variable select_subindicator : string -> browser -> browser.

(** What the table shows after the waits: the country name and the rows
    (year, value); nothing when a wait times out or an element is missing. *)
Variable read_table : browser -> option (string * list (string * string)) * browser.

Variable key_order : list (list (option value)) -> list (list (option value)).

Definition on_session (f : browser -> browser) : prog (world browser) unit :=
  act (fun w => mkWorld (f (session w)) (fetched w)).

(** [driver.get(url)] for a country code. *)
Definition get_country (country_code : Z) : prog (world browser) unit :=
  act (fun w => mkWorld (driver_get country_code (session w))
                        (fetched w ++ [country_code])).

(** [pd.DataFrame(data)] of lines 99-105. *)
Definition table_frame (country_name subindicator_name : string)
    (country_code : Z) (table_rows : list (string * string)) : DataFrame :=
  match table_rows with
  | [] => mkDF [] []
  | _ =>
      mkDF ["Country"; "Year"; subindicator_name; "Country_Code"]
           ((fun yv : string * string =>
               <["Country_Code" := VInt country_code]>
                 (<[subindicator_name := VStr yv.2]>
                    (<["Year" := VStr yv.1]>
                       {[ "Country" := VStr country_name ]})))
              <$> table_rows)
  end.

Definition extract_table_data (subindicator_name : string) (country_code : Z)
  : prog (world browser) (option DataFrame) :=
  fun w =>
    let '(shown, b) := read_table (session w) in
    (Ok (match shown with
         | Some (country_name, table_rows) =>
             Some (table_frame country_name subindicator_name country_code
                               table_rows)
         | None => None
         end),
     mkWorld b (fetched w)).

(** The loop over the subindicators, lines 135-160. *)
Fixpoint scrape_subindicators (first_iteration : bool)
    (subindicators : list (string * string)) (country_code : Z)
    (country_df : DataFrame) : prog (world browser) DataFrame :=
  match subindicators with
  | [] => mret country_df
  | (subindicator_name, subindicator_xpath) :: rest =>
      (if first_iteration
       then on_session (select_subindicator second_subindicator_xpath)
       else mret tt) ≫= fun _ =>
      on_session (select_subindicator subindicator_xpath) ≫= fun _ =>
      extract_table_data subindicator_name country_code ≫= fun df =>
      match df with
      | Some df =>
          if is_empty country_df
          then scrape_subindicators false rest country_code df
          else
            lift (merge key_order country_df df) ≫= fun merged =>
            scrape_subindicators false rest country_code merged
      | None => scrape_subindicators false rest country_code country_df
      end
  end.

(** The loop over the countries, lines 118-164. *)
Fixpoint scrape_countries (subindicators : list (string * string))
    (base_year : Z) (country_list : list Z)
    (all_country_container : list DataFrame)
  : prog (world browser) (list DataFrame) :=
  match country_list with
  | [] => mret all_country_container
  | country_code :: rest =>
      get_country country_code ≫= fun _ =>
      on_session click_table_button ≫= fun _ =>
      on_session (if base_year =? 2005 then select_year_2005
                  else select_year_2024) ≫= fun _ =>
      scrape_subindicators true subindicators country_code (mkDF [] [])
        ≫= fun country_df =>
      scrape_countries subindicators base_year rest
        (if is_empty country_df then all_country_container
         else all_country_container ++ [country_df])
  end.

Definition run_scraping (subindicators : list (string * string))
    (base_year : Z) (country_list : list Z) : prog (world browser) DataFrame :=
  scrape_countries subindicators base_year country_list [] ≫= fun container =>
  lift (pd_concat container).

(** *** The two passes of the script

    The tables that the script has bound to a name are the [globals].
    Reading a name that is not bound raises [NameError]. *)

Definition lookup_name (g : gmap string DataFrame) (name : string)
  : result DataFrame :=
  match g !! name with
  | Some df => Ok df
  | None => Raise (NameError name)
  end.

(** [df['Country_Code'].unique()], as the integers it holds. *)
Definition country_codes (df : DataFrame) : result (list Z) :=
  if bool_decide ("Country_Code" ∈ columns df)
  then Ok (omap (fun cell => match cell with
                             | Some (VInt z) => Some z
                             | _ => None
                             end) (column "Country_Code" df))
  else Raise (KeyError "Country_Code").

(** [set(range(1, 194)) - set(extracted_country_codes)] *)
Definition missing_codes (extracted_country_codes : list Z) : gset Z :=
  list_to_set (range 1 194) ∖ list_to_set extracted_country_codes.

(** One pass in a browser of its own. *)
Definition scraping_pass (base_year : Z) (country_list : list Z)
  : prog (world browser) DataFrame :=
  on_session webdriver_Chrome ≫= fun _ =>
  run_scraping subindicators_xpaths base_year country_list ≫= fun df =>
  on_session driver_quit ≫= fun _ =>
  mret df.

(** The retry block.  [obtained] is the name whose codes are read, [first]
    the name of the first pass, [full] the name that receives the result. *)
Definition retry_block (obtained first full : string) (base_year : Z)
    (g : gmap string DataFrame) : prog (world browser) (gmap string DataFrame) :=
  lift (lookup_name g obtained ≫= country_codes)
    ≫= fun extracted_country_codes =>
  let missing_country_codes := missing_codes extracted_country_codes in
  if bool_decide (missing_country_codes = ∅)
  then
    lift (lookup_name g first) ≫= fun df => mret (<[full := df]> g)
  else
    scraping_pass base_year (elements missing_country_codes) ≫= fun df_missing =>
    lift (lookup_name g first) ≫= fun df =>
    mret (<[full := concat df df_missing]> g).

(** Lines 177-195. *)
Definition first_pass_2024 (g : gmap string DataFrame)
  : prog (world browser) (gmap string DataFrame) :=
  scraping_pass 2024 (range 1 194) ≫= fun df => mret (<["df_2024" := df]> g).

Definition retry_2024 : gmap string DataFrame ->
    prog (world browser) (gmap string DataFrame) :=
  retry_block "final_df_2024" "df_2024" "full_df_2024" 2024.

(** Lines 210-228. *)
Definition first_pass_2005 (g : gmap string DataFrame)
  : prog (world browser) (gmap string DataFrame) :=
  scraping_pass 2005 (range 1 194) ≫= fun df => mret (<["df_2005" := df]> g).

Definition retry_2005 : gmap string DataFrame ->
    prog (world browser) (gmap string DataFrame) :=
  retry_block "df_2005" "df_2005" "full_df_2005" 2005.

End Scraping.

(** Two partial tables of one country, as [extract_table_data] makes
    them: the subindicators e1a1 and e1a2 for the same two years. *)
Definition example_left : DataFrame :=
  table_frame "Chile" "e1a1" 35 [("2015", "Yes"); ("2016", "No")].

Definition example_right : DataFrame :=
  table_frame "Chile" "e1a2" 35 [("2015", "No"); ("2016", "No")].

(** The first of them when the page lists the year 2015 twice. *)
Definition example_left_twice : DataFrame :=
  table_frame "Chile" "e1a1" 35 [("2015", "Yes"); ("2015", "No")].

(** *** The last coercion of the year column, line 242 *)

Section YearCoercion.

(** [pd.to_numeric] on one text, errors coerced: the number it reads, as
    the integer that [astype(int)] makes of it, or nothing. *)
Variable to_numeric : string -> option Z.

Definition to_numeric_coerce (cell : option value) : option Z :=
  match cell with
  | Some (VStr s) => to_numeric s
  | Some (VInt z) => Some z
  | _ => None
  end.

(** [.astype(int)]: a missing value cannot be cast. *)
Fixpoint astype_int (col : list (option Z)) : result (list Z) :=
  match col with
  | [] => Ok []
  | Some z :: col' => l ← astype_int col'; Ok (z :: l)
  | None :: _ => Raise IntCastingNaNError
  end.

Definition coerce_year (final_df : DataFrame) : result DataFrame :=
  if bool_decide ("Year" ∈ columns final_df)
  then
    years ← astype_int (to_numeric_coerce <$> column "Year" final_df);
    Ok (set_column "Year" ((fun z => Some (VInt z)) <$> years) final_df)
  else Raise (KeyError "Year").

End YearCoercion.

(** *** The workbook, lines 247-279 *)

Definition readme_text : string :=
  String.concat nl
    ["Data Source:";
     "This dataset is extracted from the Sendai Monitor (UNDRR) website, which provides data on subindicators related to disaster risk reduction strategies.";
     "Link: https://sendaimonitor.undrr.org/analytics/country-global-target/20/6?indicator=73 ";
     "";
     "Data is scraped in this Python script: \\main.oecd.org\ASgenENV\ENVINFO\BACKUP\STATA\IPAC\CAP\Others\Scraping_Scripts\DRR_subindicators.py";
     "Beware: Script runs a long time (~5h). Python version used was 3.11.7 ";
     "The data for the years 2005-2015 (Kyogo Framework) and 2015-2024 (Sendai Framework) were extracted separately and then combined.";
     "";
     "Variables:";
     "   • Country";
     "   • Year";
     "   • e1a[i]: Subindicator data for each subindicator (e1a1 to e1a10).";
     "";
     "Notes on subindicators:";
     "• 1: Have objectives and measures aimed at reducing existing risk";
     "• 2: Have objectives and measures aimed at preventing the creation of risk";
     "• 3: Have objectives and measures aimed at strengthening economic, social, health, and environmental resilience";
     "• 4: Have time frames, targets, and indicators";
     "• 5: Address Priority 1 recommendations and suggestions";
     "• 6: Address Priority 2 recommendations and suggestions";
     "• 7: Address Priority 3 recommendations and suggestions";
     "• 8: Address Priority 4 recommendations and suggestions";
     "• 9: Interacted at all levels with development and poverty eradication plans and policy, notably with the SDGs.";
     "• 10: Promote coherence, interaction, and compliance with CC adaptation and mitigation plans, with the Paris Agreement";
     "";
     "Please refer to the 'Data' sheet for the processed data."].

(** The data sheet, then the readme written into one merged range. *)
Definition export (final_df : DataFrame) : list Sheet :=
  [to_excel final_df "Data"; Text "Readme" [readme_text]].

(** A reader of plain decimal numerals, an instance of [to_numeric]. *)
Fixpoint read_digits (acc : Z) (s : string) : option Z :=
  match s with
  | EmptyString => Some acc
  | String c s' =>
      if Py.is_digit c then read_digits (acc * 10 + Py.digit_val c) s'
      else None
  end.

Definition read_numeral (s : string) : option Z :=
  match s with
  | EmptyString => None
  | _ => read_digits 0 s
  end.

(** A table of the two periods in which one year cell is not a number. *)
Definition example_final_df : DataFrame :=
  mkDF ["Country"; "Year"; "e1a1"; "Country_Code"]
       [ {[ "Country" := VStr "Chile"; "Year" := VStr "2014";
            "e1a1" := VStr "Yes"; "Country_Code" := VInt 35 ]};
         {[ "Country" := VStr "Chile"; "Year" := VStr "n/a";
            "e1a1" := VStr "No"; "Country_Code" := VInt 35 ]} ].

End Drr.

(** * Properties *)

(** ** MARPOL: the sort *)

Section MarpolSort.
Import Marpol.

Lemma string_compare_refl (s : string) : String.compare s s = Eq.
Proof.
  pose proof (String.compare_antisym s s) as H.
  destruct (String.compare s s); simpl in H; congruence.
Qed.

Lemma key_leb_total (a b : wide_row) : key_leb a b = false -> key_leb b a = true.
Proof.
  unfold key_leb. rewrite (String.compare_antisym (Country a) (Country b)).
  destruct (String.compare (Country b) (Country a)); simpl; try congruence.
  intros H. apply Z.leb_le. apply Z.leb_gt in H. lia.
Qed.

Lemma key_leb_same_country (a b : wide_row) :
  Country a = Country b -> Year a <= Year b -> key_leb a b = true.
Proof.
  intros Hc Hy. unfold key_leb. rewrite Hc, string_compare_refl.
  by apply Z.leb_le.
Qed.

Lemma insert_sorted_perm (x : wide_row) (l : list wide_row) :
  insert_sorted x l ≡ₚ x :: l.
Proof.
  induction l as [|y l IH]; simpl; [done|].
  destruct (key_leb x y); [done|].
  rewrite IH. apply Permutation_swap.
Qed.

Lemma insert_sorted_hd (x y : wide_row) (l : list wide_row) :
  key_le y x -> HdRel key_le y l -> HdRel key_le y (insert_sorted x l).
Proof.
  intros Hyx Hl. destruct l as [|z l]; simpl.
  - by constructor.
  - destruct (key_leb x z); constructor; [done|]. by inversion Hl.
Qed.

Lemma insert_sorted_Sorted (x : wide_row) (l : list wide_row) :
  Sorted key_le l -> Sorted key_le (insert_sorted x l).
Proof.
  induction 1 as [|y l Hs IH Hhd]; simpl.
  - repeat constructor.
  - destruct (key_leb x y) eqn:E.
    + constructor; [by constructor|]. by constructor.
    + constructor; [done|]. apply insert_sorted_hd; [|done].
      by apply key_leb_total.
Qed.

Lemma sort_values_perm (l : list wide_row) : sort_values l ≡ₚ l.
Proof.
  induction l as [|x l IH]; simpl; [done|].
  by rewrite insert_sorted_perm, IH.
Qed.

Lemma sort_values_Sorted (l : list wide_row) : Sorted key_le (sort_values l).
Proof.
  induction l as [|x l IH]; simpl; [constructor|].
  by apply insert_sorted_Sorted.
Qed.

(** A table that is already in order is left as it is. *)
Lemma sort_values_id (l : list wide_row) : Sorted key_le l -> sort_values l = l.
Proof.
  induction 1 as [|x l Hs IH Hhd]; simpl; [done|].
  rewrite IH. destruct Hhd as [|y l Hxy]; simpl; [done|].
  unfold key_le in Hxy. by rewrite Hxy.
Qed.

End MarpolSort.

(** ** MARPOL: the cleaned panel *)

Section MarpolPanel.
Import Marpol.

Variable to_datetime_year : string -> option Z.

Lemma clean_panel_data_rows (panel : list panel_row) :
  rows (clean_panel_data to_datetime_year panel) =
  select_row panel_labels <$> sort_values (cleaned to_datetime_year <$> panel).
Proof.
  unfold clean_panel_data, select, cleaned. simpl.
  by rewrite <- !list_fmap_compose.
Qed.

Lemma select_row_lookup (w : wide_row) :
  let r := select_row panel_labels w in
  r !! "Country" = Some (VStr (Country w)) /\
  r !! "Year" = Some (VInt (Year w)) /\
  r !! "marpol_sign" = Some (VInt (marpol_sign w)) /\
  r !! "marpol_effect" = Some (VInt (marpol_effect w)) /\
  dom r = list_to_set panel_labels.
Proof.
  unfold select_row, panel_labels. simpl.
  repeat split; by simplify_map_eq.
Qed.

Lemma cleaned_Year (p : panel_row) : Year (cleaned to_datetime_year p) = p_Year p.
Proof.
  unfold cleaned, indicators, clip_sign, clip_effect, convert. simpl.
  repeat case_match; done.
Qed.

Lemma cleaned_Country (p : panel_row) :
  Country (cleaned to_datetime_year p) = Py.remove_newlines (p_Country p).
Proof.
  unfold cleaned, indicators, clip_sign, clip_effect, convert. simpl.
  repeat case_match; done.
Qed.

Lemma le_indicator_01 (a : option Z) (b : Z) :
  le_indicator a b = 0 \/ le_indicator a b = 1.
Proof. unfold le_indicator. repeat case_match; auto. Qed.

Lemma cleaned_sign (p : panel_row) :
  marpol_sign (cleaned to_datetime_year p) =
  if p_Year p <? 1997 then 0
  else le_indicator (p_Signature p ≫= to_datetime_year) (p_Year p).
Proof.
  unfold cleaned, indicators, clip_sign, clip_effect, convert. simpl.
  repeat case_match; simpl in *; try done; try lia.
Qed.

Lemma cleaned_effect (p : panel_row) :
  marpol_effect (cleaned to_datetime_year p) =
  if p_Year p <? 2005 then 0
  else le_indicator (p_EntryintoForce p ≫= to_datetime_year) (p_Year p).
Proof.
  unfold cleaned, indicators, clip_sign, clip_effect, convert. simpl.
  repeat case_match; simpl in *; try done; try lia.
Qed.

Lemma key_le_rows_le (a b : wide_row) :
  key_le a b -> rows_le (select_row panel_labels a) (select_row panel_labels b).
Proof.
  unfold key_le, key_leb, rows_le, row_key.
  destruct (select_row_lookup a) as (-> & -> & _).
  destruct (select_row_lookup b) as (-> & -> & _).
  destruct (String.compare (Country a) (Country b)) eqn:E; try done.
  - intros H%Z.leb_le. right. split; [|done]. by apply String.compare_eq_iff.
  - by left.
Qed.

(** Every record of the result comes from a row of the panel. *)
Lemma clean_panel_data_elem (panel : list panel_row) (r : gmap string value) :
  r ∈ rows (clean_panel_data to_datetime_year panel) <->
  exists p, p ∈ panel /\ r = select_row panel_labels (cleaned to_datetime_year p).
Proof.
  rewrite clean_panel_data_rows, list_elem_of_fmap. split.
  - intros (w & -> & Hw). rewrite sort_values_perm in Hw.
    apply list_elem_of_fmap in Hw as (p & -> & Hp). eauto.
  - intros (p & Hp & ->). exists (cleaned to_datetime_year p). split; [done|].
    rewrite sort_values_perm. apply list_elem_of_fmap. eauto.
Qed.

End MarpolPanel.

Section MarpolClaims.
Import Marpol.

Lemma generate_panel_data_single (e : raw_row) :
  generate_panel_data [e] = (fun y => with_year y e) <$> range 1990 2024.
Proof. reflexivity. Qed.

Lemma seqZ_Sorted (n : nat) (m : Z) : Sorted Z.le (seqZ m (Z.of_nat n)).
Proof.
  revert m. induction n as [|n IH]; intros m.
  - rewrite seqZ_nil by lia. constructor.
  - rewrite seqZ_cons by lia.
    replace (Z.pred (Z.of_nat (S n))) with (Z.of_nat n) by lia.
    constructor; [apply IH|].
    destruct n as [|n]; [rewrite seqZ_nil by lia; constructor|].
    rewrite seqZ_cons by lia. constructor. lia.
Qed.

Lemma range_1990_2024_Sorted : Sorted Z.le (range 1990 2024).
Proof. apply (seqZ_Sorted 34). Qed.

(** The panel of one entity is already in order, so the sort keeps the
    years in the order of [range(1990, 2024)]. *)
Lemma clean_single_rows (to_datetime_year : string -> option Z) (e : raw_row) :
  rows (clean_panel_data to_datetime_year (generate_panel_data [e])) =
  (fun y => select_row panel_labels (cleaned to_datetime_year (with_year y e)))
    <$> range 1990 2024.
Proof.
  rewrite clean_panel_data_rows, generate_panel_data_single.
  rewrite <- !list_fmap_compose.
  rewrite sort_values_id; [by rewrite <- list_fmap_compose|].
  eapply Sorted_fmap; [|apply range_1990_2024_Sorted].
  intros x y Hxy. apply key_leb_same_country.
  - change (Country (cleaned to_datetime_year (with_year x e)) =
            Country (cleaned to_datetime_year (with_year y e))).
    by rewrite !cleaned_Country.
  - change (Year (cleaned to_datetime_year (with_year x e)) <=
            Year (cleaned to_datetime_year (with_year y e))).
    by rewrite !cleaned_Year.
Qed.

(** C9: whatever the panel holds, [clean_panel_data] returns a table with
    the columns Country, Year, marpol_sign, marpol_effect and no other, one
    record per row of the panel, in which both indicators are 0 or 1 in
    every row (a date that is missing or cannot be read gives 0, never a
    missing indicator), sorted by Country and then Year. *)
Theorem C9_clean_panel_data_table
    (to_datetime_year : string -> option Z) (panel : list panel_row) :
  let out := clean_panel_data to_datetime_year panel in
  columns out = ["Country"; "Year"; "marpol_sign"; "marpol_effect"] /\
  List.length (rows out) = List.length panel /\
  (forall r, r ∈ rows out ->
     dom r = list_to_set (columns out) /\
     is_indicator (r !! "marpol_sign") /\
     is_indicator (r !! "marpol_effect")) /\
  Sorted rows_le (rows out).
Proof.
  intros out. split; [done|]. split; [|split].
  - unfold out. rewrite clean_panel_data_rows, length_fmap.
    by rewrite sort_values_perm, length_fmap.
  - intros r Hr. apply clean_panel_data_elem in Hr as (p & _ & ->).
    destruct (select_row_lookup (cleaned to_datetime_year p))
      as (_ & _ & -> & -> & ->).
    split; [done|]. unfold is_indicator.
    rewrite cleaned_sign, cleaned_effect.
    split; repeat case_match; auto;
      match goal with
      | |- context [le_indicator ?a ?b] =>
          destruct (le_indicator_01 a b) as [-> | ->]; auto
      end.
  - unfold out. rewrite clean_panel_data_rows.
    eapply Sorted_fmap; [|apply sort_values_Sorted].
    apply key_le_rows_le.
Qed.

Lemma select_row_out_row (w : wide_row) :
  select_row panel_labels w =
  out_row (Country w) (Year w) (marpol_sign w) (marpol_effect w).
Proof. reflexivity. Qed.

(** Before the cut-off years the indicators are 0, whatever the dates. *)
Lemma clipped_indicators
    (to_datetime_year : string -> option Z) (panel : list panel_row)
    (r : gmap string value) (y : Z) :
  r ∈ rows (clean_panel_data to_datetime_year panel) ->
  r !! "Year" = Some (VInt y) ->
  (y < 1997 -> r !! "marpol_sign" = Some (VInt 0)) /\
  (y < 2005 -> r !! "marpol_effect" = Some (VInt 0)).
Proof.
  intros (p & _ & ->)%clean_panel_data_elem.
  destruct (select_row_lookup (cleaned to_datetime_year p))
    as (_ & -> & -> & -> & _).
  rewrite cleaned_Year, cleaned_sign, cleaned_effect.
  intros [= <-]. split; intros Hy.
  - by rewrite (proj2 (Z.ltb_lt _ _) Hy).
  - by rewrite (proj2 (Z.ltb_lt _ _) Hy).
Qed.

(** The record that the panel holds for an entity and a year. *)
Lemma cleaned_row_of_entity
    (to_datetime_year : string -> option Z) (e : raw_row) (y : Z) :
  raw_Signature e ≫= to_datetime_year = Some 1999 ->
  raw_EntryintoForce e ≫= to_datetime_year = Some 2000 ->
  select_row panel_labels (cleaned to_datetime_year (with_year y e)) =
  out_row (Py.remove_newlines (raw_Country e)) y
          (if 1999 <=? y then 1 else 0) (if 2005 <=? y then 1 else 0).
Proof.
  intros Hs He.
  rewrite select_row_out_row, cleaned_Country, cleaned_Year.
  rewrite cleaned_sign, cleaned_effect. simpl. rewrite Hs, He. simpl.
  f_equal; repeat case_match; lia.
Qed.

(** C1, as the code has it: for an entity of the combined table signed in
    1999 and in force in 2000, the panel holds for every year of 1990-2023
    the record of the entity with marpol_sign 1 exactly from 1999 on, and
    marpol_effect 0 in every year before 2005, so in all of 1995-2002, and
    1 from 2005 on; when the entity is alone in the table these records, in
    the order of the years, are the whole panel.  And for every table and
    whatever the source dates, in a year before 1997 marpol_sign is 0 and
    in a year before 2005 marpol_effect is 0. *)
Theorem C1_panel_indicators
    (to_datetime_year : string -> option Z) (combined : list raw_row)
    (e : raw_row) :
  e ∈ combined ->
  raw_Signature e ≫= to_datetime_year = Some 1999 ->
  raw_EntryintoForce e ≫= to_datetime_year = Some 2000 ->
  (forall y, 1990 <= y < 2024 ->
     out_row (Py.remove_newlines (raw_Country e)) y
             (if 1999 <=? y then 1 else 0) (if 2005 <=? y then 1 else 0)
     ∈ rows (clean_panel_data to_datetime_year (generate_panel_data combined)))
  /\
  rows (clean_panel_data to_datetime_year (generate_panel_data [e])) =
    (fun y => out_row (Py.remove_newlines (raw_Country e)) y
                      (if 1999 <=? y then 1 else 0)
                      (if 2005 <=? y then 1 else 0)) <$> range 1990 2024
  /\
  (forall (reader : string -> option Z) (table : list raw_row)
          (r : gmap string value) (y : Z),
     r ∈ rows (clean_panel_data reader (generate_panel_data table)) ->
     r !! "Year" = Some (VInt y) ->
     (y < 1997 -> r !! "marpol_sign" = Some (VInt 0)) /\
     (y < 2005 -> r !! "marpol_effect" = Some (VInt 0))).
Proof.
  intros Hin Hs He. split; [|split; [|intros; by eapply clipped_indicators]].
  - intros y Hy. apply clean_panel_data_elem. exists (with_year y e). split.
    + unfold generate_panel_data. apply list_elem_of_bind. exists y. split.
      * apply list_elem_of_fmap. eauto.
      * unfold range. apply elem_of_seqZ. lia.
    + by rewrite cleaned_row_of_entity.
  - rewrite clean_single_rows. apply list_fmap_ext. intros i y _.
    by apply cleaned_row_of_entity.
Qed.

Lemma C1_panel_indicators_witness :
  rows (clean_panel_data Pandas.coerce_year_dBY
          (generate_panel_data [example_entity])) =
    (fun y => out_row "Liberia" y (if 1999 <=? y then 1 else 0)
                      (if 2005 <=? y then 1 else 0)) <$> range 1990 2024.
Proof.
  refine (proj1 (proj2 (C1_panel_indicators Pandas.coerce_year_dBY
                          [example_entity] example_entity _ eq_refl eq_refl))).
  apply list_elem_of_singleton. reflexivity.
Defined.

(** C1 as the specification words it fails on the example entity: in 2000
    the entry-into-force indicator is 0, not 1, and in 1995 the signature
    indicator is the number 0, not a missing value. *)
Lemma C1_counterexample :
  let out := clean_panel_data Pandas.coerce_year_dBY
               (generate_panel_data [example_entity]) in
  ~ (forall r y, r ∈ rows out -> r !! "Year" = Some (VInt y) ->
       1995 <= y <= 2002 ->
       (r !! "marpol_effect" = Some (VInt 1) <-> 2000 <= y) /\
       (y < 1997 -> r !! "marpol_sign" = None)).
Proof.
  intros out H.
  destruct (H (out_row "Liberia" 2000 1 0) 2000) as [[_ H1] _].
  - unfold out. rewrite clean_single_rows. apply list_elem_of_fmap.
    exists 2000. split; [reflexivity|]. apply elem_of_seqZ. lia.
  - reflexivity.
  - lia.
  - specialize (H1 ltac:(lia)). vm_compute in H1. discriminate.
Qed.

End MarpolClaims.

(** ** LVC: forward fill *)

Section LvcFill.
Import Lvc.

Lemma ffill_from_seq {A} (last : option A) (col : list (option A)) :
  ffill_from last col =
  (fun i => last_seen_from last (take (S i) col)) <$> seq 0 (List.length col).
Proof.
  revert last. induction col as [|cell col IH]; intros last; [done|].
  simpl. f_equal. rewrite IH, <- fmap_S_seq, <- list_fmap_compose.
  by apply list_fmap_ext.
Qed.

(** Every cell of the filled column is the last value present at or above
    it in the column before the fill. *)
Lemma ffill_last_seen {A} (col : list (option A)) :
  ffill col =
  (fun i => last_seen (take (S i) col)) <$> seq 0 (List.length col).
Proof. apply ffill_from_seq. Qed.

(** C7: replacing the empty texts by missing values and filling forward
    maps Tax, blank, blank, Fee, blank to Tax, Tax, Tax, Fee, Fee, on the
    column alone and on the instrument column of a table through the
    cleaning steps of [extract_LVC_Data]. *)
Theorem C7_forward_fill :
  ffill (blank_to_na <$>
           [Some (VStr "Tax"); Some (VStr ""); Some (VStr "");
            Some (VStr "Fee"); Some (VStr "")]) =
    [Some (VStr "Tax"); Some (VStr "Tax"); Some (VStr "Tax");
     Some (VStr "Fee"); Some (VStr "Fee")]
  /\
  column instrument example_frame =
    [Some (VStr "Tax"); Some (VStr ""); Some (VStr "");
     Some (VStr "Fee"); Some (VStr "")]
  /\
  column instrument (clean_instrument example_frame) =
    [Some (VStr "Tax"); Some (VStr "Tax"); Some (VStr "Tax");
     Some (VStr "Fee"); Some (VStr "Fee")].
Proof. repeat split; vm_compute; reflexivity. Qed.

End LvcFill.

(** ** LVC: the years of a legal provision *)

Section LvcYears.
Import Lvc.

Context {char : Type}.
Variable is_word : char -> bool.
Variable digit_value : char -> option Z.

(** The engine's classes: a decimal digit is a word character. *)
Hypothesis digit_is_word :
  forall c, is_digit digit_value c = true -> is_word c = true.

Lemma no_match_inside (prev : option char) (c : char) (s : list char) :
  (exists p, prev = Some p /\ is_digit digit_value p = true) ->
  is_digit digit_value c = true ->
  matches_here is_word digit_value prev (c :: s) = false.
Proof.
  intros (p & -> & Hp) Hc. unfold matches_here.
  destruct s as [|d2 [|d3 [|d4 rest]]]; try done.
  unfold boundary. simpl.
  by rewrite (digit_is_word _ Hp), (digit_is_word _ Hc).
Qed.

Lemma findall_standalone (skip : nat) (prev : option char) (s : list char) :
  inside_match digit_value skip prev s ->
  int_of digit_value <$> findall is_word digit_value skip prev s =
  standalone_numbers is_word digit_value prev s.
Proof.
  revert skip prev. induction s as [|c s IH]; intros skip prev Hin; [done|].
  destruct skip as [|k].
  - cbn [findall standalone_numbers].
    destruct (matches_here is_word digit_value prev (c :: s)) eqn:Hm.
    + rewrite fmap_cons. cbn [app]. f_equal. apply IH. right.
      unfold matches_here in Hm.
      destruct s as [|d2 [|d3 [|d4 rest]]]; try done.
      repeat (apply andb_prop in Hm as [Hm ?]).
      split; [by eauto|]. simpl. by repeat constructor.
    + cbn [app]. apply IH. by left.
  - destruct Hin as [|[Hp Hall]]; [done|].
    cbn [findall standalone_numbers].
    rewrite firstn_cons in Hall. apply Forall_cons in Hall as [Hc Hall].
    rewrite no_match_inside by done. cbn [app].
    apply IH. destruct k; [by left|]. right. eauto.
Qed.

Lemma extract_valid_years_spec (text : list char) :
  extract_valid_years is_word digit_value text =
  match standalone_years is_word digit_value text with
  | [] => None
  | years => Some years
  end.
Proof.
  unfold extract_valid_years, standalone_years.
  rewrite findall_standalone by (by left).
  by destruct (filter _ _).
Qed.

End LvcYears.

Lemma ascii_digit_is_word (c : ascii) :
  Lvc.is_digit Lvc.ascii_digit_value c = true -> Lvc.ascii_is_word c = true.
Proof.
  unfold Lvc.is_digit, Lvc.ascii_digit_value, Lvc.ascii_is_word.
  by destruct (Py.is_digit c).
Qed.

(** C10: [extract_valid_years] returns [None] when the text has no
    standalone four-digit number with a value in 1800..2025, and otherwise
    the list of all of them, as integers, in the order of the text; the
    list it returns is never empty.  The function is total: it does not
    raise on a text. *)
Theorem C10_extract_valid_years
    {char : Type} (is_word : char -> bool) (digit_value : char -> option Z)
    (text : list char) :
  (forall c, Lvc.is_digit digit_value c = true -> is_word c = true) ->
  (Lvc.standalone_years is_word digit_value text = [] ->
   Lvc.extract_valid_years is_word digit_value text = None) /\
  (Lvc.standalone_years is_word digit_value text <> [] ->
   Lvc.extract_valid_years is_word digit_value text =
   Some (Lvc.standalone_years is_word digit_value text)) /\
  Lvc.extract_valid_years is_word digit_value text <> Some [].
Proof.
  intros Hd. rewrite (extract_valid_years_spec is_word digit_value Hd).
  destruct (Lvc.standalone_years is_word digit_value text); repeat split;
    intros; congruence.
Qed.

Lemma C10_extract_valid_years_witness :
  Lvc.extract_valid_years_ascii "Law 12/1999, amended 2004 (Act1998, 12345, 2030)"
  = Some [1999; 2004].
Proof.
  pose proof (C10_extract_valid_years Lvc.ascii_is_word Lvc.ascii_digit_value
    (list_ascii_of_string "Law 12/1999, amended 2004 (Act1998, 12345, 2030)")
    ascii_digit_is_word) as (_ & H & _).
  unfold Lvc.extract_valid_years_ascii. rewrite H; vm_compute; congruence.
Defined.

(** ** ECT: the year of a date line *)

Section EctExtractDate.
Import Ect.

Variable to_datetime_format : string -> option Pandas.stamp.

Lemma extract_date_null (prefix : string) :
  extract_date to_datetime_format None prefix = Ok PyNone.
Proof. reflexivity. Qed.

Lemma extract_date_no_prefix (text prefix : string) :
  Py.contains prefix text = false ->
  extract_date to_datetime_format (Some text) prefix = Ok PyNone.
Proof. intros H. unfold extract_date. by rewrite H. Qed.

(** With the prefix in the text, the result follows the reader on the
    stripped second piece of the split. *)
Lemma extract_date_piece (text prefix piece : string) (pieces : list string) :
  Py.contains prefix text = true ->
  Py.split text prefix = Ok pieces ->
  pieces !! 1%nat = Some piece ->
  extract_date to_datetime_format (Some text) prefix =
  match to_datetime_format (Py.strip piece) with
  | Some t => Ok (year_attr t)
  | None => Ok PyNone
  end.
Proof.
  intros Hc Hs Hp. unfold extract_date. rewrite Hc, Hs. simpl.
  unfold Py.index. rewrite Hp. simpl.
  by destruct (to_datetime_format (Py.strip piece)).
Qed.

(** No exception leaves [extract_date]. *)
Lemma extract_date_total (text : option string) (prefix : string) :
  exists v, extract_date to_datetime_format text prefix = Ok v.
Proof.
  unfold extract_date. destruct text as [text|]; [|by eauto].
  destruct (Py.contains prefix text); [|by eauto].
  destruct (Py.split text prefix) as [pieces|e] eqn:Hs; simpl.
  - unfold Py.index. destruct (pieces !! 1%nat) as [piece|]; simpl; [|by eauto].
    destruct (to_datetime_format (Py.strip piece)); simpl; by eauto.
  - unfold Py.split in Hs. destruct prefix; [|done].
    injection Hs as <-. simpl. by eauto.
Qed.

End EctExtractDate.

(** The example of the specification, with the reader of [%d %B %Y]. *)
Lemma extract_date_example :
  Ect.extract_date Pandas.to_datetime_dBY
    (Some "ratified on 05 December 1997") "ratified on" = Ok (Ect.PyInt 1997).
Proof. reflexivity. Qed.

(** C6 fails where the reader returns NaT instead of raising: for a text
    with the prefix whose second piece, stripped, the reader takes for NaT
    (pandas does so for the empty text and for the words nan and NaT),
    [extract_date] returns the float NaN, where the claim and the
    docstring ("int or None") say [None]. *)
Theorem C6_extract_date_nan
    (to_datetime_format : string -> option Pandas.stamp)
    (text prefix piece : string) (pieces : list string) :
  Py.contains prefix text = true ->
  Py.split text prefix = Ok pieces ->
  pieces !! 1%nat = Some piece ->
  to_datetime_format (Py.strip piece) = Some Pandas.NaT ->
  Ect.extract_date to_datetime_format (Some text) prefix = Ok Ect.PyNaN.
Proof.
  intros Hc Hs Hp Hnat.
  rewrite (extract_date_piece to_datetime_format text prefix piece pieces)
    by done.
  by rewrite Hnat.
Qed.

(** A date line that ends with its prefix. *)
Lemma C6_extract_date_nan_witness :
  Ect.extract_date Pandas.to_datetime_dBY (Some "ratified on") "ratified on"
  = Ok Ect.PyNaN.
Proof.
  apply (C6_extract_date_nan Pandas.to_datetime_dBY
           "ratified on" "ratified on" "" [""; ""]); reflexivity.
Defined.

(** A date line with a NaT word for a date. *)
Lemma extract_date_nan_word :
  Ect.extract_date Pandas.to_datetime_dBY (Some "ratified on nan")
    "ratified on" = Ok Ect.PyNaN.
Proof. reflexivity. Qed.

(** ** ECT: the hand-made withdrawals *)

Section EctWithdrawals.
Import Ect.

Lemma country_is_set_cell (c key : string) (cell : option value)
    (r : gmap string value) :
  key <> "Country" -> country_is c (set_cell key cell r) = country_is c r.
Proof.
  intros Hk. unfold country_is, set_cell. destruct cell.
  - by rewrite lookup_insert_ne.
  - by rewrite lookup_delete_ne.
Qed.

Lemma country_is_apply_cells (c : string) (cells : list (string * option value))
    (r : gmap string value) :
  "Country" ∉ cells.*1 -> country_is c (apply_cells cells r) = country_is c r.
Proof.
  unfold apply_cells. revert r.
  induction cells as [|[k cell] cells IH]; intros r Hk; [done|].
  rewrite fmap_cons, not_elem_of_cons in Hk. destruct Hk as [Hk1 Hk2].
  simpl. rewrite IH by done. by apply country_is_set_cell.
Qed.

Lemma country_is_new_row (c c' : string) (cells : list (string * option value)) :
  "Country" ∉ cells.*1 -> country_is c' (new_row c cells) = String.eqb c c'.
Proof.
  intros Hk. unfold new_row. rewrite country_is_apply_cells by done.
  unfold country_is. by rewrite lookup_singleton_eq.
Qed.

Lemma country_is_inj (c c' : string) (r : gmap string value) :
  country_is c r = true -> country_is c' r = true -> c = c'.
Proof.
  unfold country_is. destruct (r !! "Country") as [[s| |]|]; try done.
  intros H1%String.eqb_eq H2%String.eqb_eq. congruence.
Qed.

(** Reading a record after the cells of one country were written. *)
Lemma apply_cells_lookup_ne (cells : list (string * option value))
    (r : gmap string value) (key : string) :
  key ∉ cells.*1 -> apply_cells cells r !! key = r !! key.
Proof.
  unfold apply_cells. revert r.
  induction cells as [|[k cell] cells IH]; intros r Hk; [done|].
  rewrite fmap_cons, not_elem_of_cons in Hk. destruct Hk as [Hk1 Hk2].
  simpl. rewrite IH by done. unfold set_cell. simpl in Hk1. destruct cell.
  - by rewrite lookup_insert_ne.
  - by rewrite lookup_delete_ne.
Qed.

Lemma apply_cells_lookup (cells : list (string * option value))
    (r : gmap string value) (key : string) (cell : option value) :
  NoDup cells.*1 -> (key, cell) ∈ cells -> apply_cells cells r !! key = cell.
Proof.
  unfold apply_cells. revert r.
  induction cells as [|[k c] cells IH]; intros r Hnd Hin.
  - by apply elem_of_nil in Hin.
  - rewrite fmap_cons in Hnd. apply NoDup_cons in Hnd as [Hk Hnd].
    apply elem_of_cons in Hin as [[= <- <-]|Hin]; simpl.
    + fold (apply_cells cells (set_cell key cell r)).
      rewrite apply_cells_lookup_ne by done. unfold set_cell. destruct cell.
      * by rewrite lookup_insert_eq.
      * by rewrite lookup_delete_eq.
    + by apply IH.
Qed.

Variable to_datetime : string -> option Pandas.stamp.

Lemma update_fields_rows (c : string) (dates : list (string * string))
    (cells : list (string * option value)) (df : DataFrame) :
  year_cells to_datetime dates = Ok cells ->
  "Country" ∉ cells.*1 ->
  "Country" ∈ columns df ->
  exists df', update_fields to_datetime c dates df = Ok df' /\
    "Country" ∈ columns df' /\
    rows df' =
      (fun r => if country_is c r then apply_cells cells r else r) <$> rows df.
Proof.
  revert cells df. induction dates as [|[k v] dates IH]; intros cells df Hy Hk Hc.
  - injection Hy as <-. exists df. repeat split; [done|].
    simpl. rewrite <- (list_fmap_id (rows df)) at 1.
    apply list_fmap_ext. intros i r _. by destruct (country_is c r).
  - simpl in Hy. destruct (year_cell to_datetime v) as [cell|] eqn:Hv; [|done].
    simpl in Hy.
    destruct (year_cells to_datetime dates) as [cells'|] eqn:Hd; [|done].
    injection Hy as <-.
    rewrite fmap_cons, not_elem_of_cons in Hk. destruct Hk as [Hk1 Hk2].
    simpl. rewrite Hv. simpl.
    destruct (IH cells' (assign_where c k cell df) eq_refl Hk2)
      as (df' & -> & Hc' & Hr).
    { unfold assign_where. simpl. case_bool_decide; [done|].
      apply elem_of_app. by left. }
    exists df'. repeat split; [done|]. rewrite Hr. unfold assign_where. simpl.
    rewrite <- list_fmap_compose. apply list_fmap_ext. intros i r _. simpl.
    destruct (country_is c r) eqn:E.
    + rewrite country_is_set_cell by done. by rewrite E.
    + by rewrite E.
Qed.

Lemma existsb_country_fmap (c : string)
    (f : gmap string value -> gmap string value) (l : list (gmap string value)) :
  (forall r, country_is c (f r) = country_is c r) ->
  existsb (country_is c) (f <$> l) = existsb (country_is c) l.
Proof.
  intros Hf. induction l as [|r l IH]; [done|].
  rewrite fmap_cons. simpl. by rewrite Hf, IH.
Qed.

Lemma existsb_country_false (c : string) (l : list (gmap string value))
    (r : gmap string value) :
  existsb (country_is c) l = false -> r ∈ l -> country_is c r = false.
Proof.
  intros He Hr. apply not_true_is_false. intros Ht.
  assert (existsb (country_is c) l = true); [|congruence].
  apply existsb_exists. exists r. split; [|done]. by apply list_elem_of_In.
Qed.

Lemma manual_update_skip (entry : string * list (string * option value))
    (table : list (string * list (string * option value)))
    (r : gmap string value) :
  country_is entry.1 r = false ->
  manual_update (entry :: table) r = manual_update table r.
Proof. intros H. unfold manual_update. simpl. by rewrite H. Qed.

Lemma manual_update_none
    (table : list (string * list (string * option value)))
    (r : gmap string value) :
  (forall entry, entry ∈ table -> country_is entry.1 r = false) ->
  manual_update table r = r.
Proof.
  induction table as [|entry table IH]; intros H; [done|].
  rewrite manual_update_skip by (apply H; left).
  apply IH. intros e He. apply H. by right.
Qed.

Lemma omap_ext_elem_of {A B} (f g : A -> option B) (l : list A) :
  (forall x, x ∈ l -> f x = g x) -> omap f l = omap g l.
Proof.
  induction l as [|x l IH]; intros H; [done|].
  assert (Hl : omap f l = omap g l).
  { apply IH. intros y Hy. apply H. by right. }
  change (omap f (x :: l)) with
    (match f x with Some y => y :: omap f l | None => omap f l end).
  change (omap g (x :: l)) with
    (match g x with Some y => y :: omap g l | None => omap g l end).
  rewrite (H x) by left. by rewrite Hl.
Qed.

(** The result of the loop on any table of dates that the reader reads. *)
Lemma update_rows (wd : list (string * list (string * string)))
    (table : list (string * list (string * option value))) (df : DataFrame) :
  parsed to_datetime wd table ->
  NoDup table.*1 ->
  Forall (fun entry => "Country" ∉ entry.2.*1) table ->
  "Country" ∈ columns df ->
  exists df', update_dataframe_withdrawals to_datetime df wd = Ok df' /\
    rows df' = (manual_update table <$> rows df) ++ appended_rows table df.
Proof.
  intros Hp. revert df.
  induction Hp as [|[c dates] [c' cells] wd table [Hcc Hy] Hp IH];
    intros df Hnd Hk Hc.
  - exists df. split; [done|]. simpl. unfold appended_rows. simpl.
    rewrite app_nil_r. rewrite <- (list_fmap_id (rows df)) at 1.
    by apply list_fmap_ext.
  - simpl in Hcc, Hy. subst c'.
    rewrite fmap_cons in Hnd. apply NoDup_cons in Hnd as [Hfresh Hnd].
    apply Forall_cons in Hk as [Hk1 Hk]. simpl in Hk1, Hfresh.
    assert (Hother : forall e, e ∈ table -> e.1 <> c).
    { intros e He Heq. apply Hfresh. rewrite <- Heq.
      apply list_elem_of_fmap. eauto. }
    cbn [update_dataframe_withdrawals update_country].
    rewrite bool_decide_eq_true_2 by done.
    destruct (existsb (country_is c) (rows df)) eqn:Hex.
    + destruct (update_fields_rows c dates cells df Hy Hk1 Hc)
        as (df1 & -> & Hc1 & Hr1).
      destruct (IH df1 Hnd Hk Hc1) as (df' & Hu & Hr).
      exists df'. split; [done|]. rewrite Hr, Hr1. f_equal.
      * rewrite <- list_fmap_compose. apply list_fmap_ext. intros i r _.
        simpl. destruct (country_is c r) eqn:E.
        -- unfold manual_update at 2. simpl. rewrite E.
           apply manual_update_none. intros e He.
           rewrite country_is_apply_cells by done.
           apply not_true_is_false. intros Ht.
           apply (Hother e He). by eapply country_is_inj.
        -- by rewrite manual_update_skip.
      * unfold appended_rows. simpl. rewrite Hex, Hr1.
        apply omap_ext_elem_of. intros e He'.
        rewrite existsb_country_fmap; [done|].
        intros r. destruct (country_is c r); [|done].
        by apply country_is_apply_cells.
    + rewrite Hy. simpl.
      set (df1 := concat df _).
      destruct (IH df1 Hnd Hk) as (df' & Hu & Hr).
      { unfold df1, concat. simpl. apply elem_of_app. by left. }
      exists df'. split; [done|]. rewrite Hr. unfold df1, concat. simpl.
      rewrite fmap_app, <- app_assoc. f_equal.
      * apply list_fmap_ext. intros i r Hi.
        rewrite manual_update_skip; [done|]. simpl.
        eapply existsb_country_false; [done|].
        by eapply list_elem_of_lookup_2.
      * simpl. unfold appended_rows at 2. simpl. rewrite Hex. f_equal.
        -- apply manual_update_none. intros e He.
           rewrite country_is_new_row by done.
           apply String.eqb_neq. intros ->. by apply (Hother e He).
        -- unfold appended_rows. simpl. apply omap_ext_elem_of.
           intros e He'. rewrite existsb_app. simpl.
           rewrite country_is_new_row by done.
           assert (String.eqb c e.1 = false) as ->.
           { apply String.eqb_neq. intros ->. by apply (Hother e He'). }
           by rewrite !orb_false_r.
Qed.

End EctWithdrawals.

Section EctManualTable.
Import Ect.

Variable to_datetime : string -> option Pandas.stamp.

(** The reader returns the time stamp of a date written [YYYY-MM-DD]. *)
Hypothesis reads_iso :
  forall s t, Pandas.iso_date s = Some t -> to_datetime s = Some t.

Lemma year_cells_iso (dates : list (string * string))
    (fields : list (string * Z)) :
  Forall2 (fun d f =>
             d.1 = f.1 /\ String.eqb d.2 "N.A." = false /\
             Pandas.iso_date d.2 ≫= Pandas.stamp_year = Some f.2)
          dates fields ->
  year_cells to_datetime dates = Ok (cells_of fields).
Proof.
  induction 1 as [|[k v] [k' y] dates fields (Hk & Hna & Hiso) _ IH]; [done|].
  simpl in Hk, Hna, Hiso. subst k'.
  destruct (Pandas.iso_date v) as [t|] eqn:Ht; [|done]. simpl in Hiso.
  cbn [year_cells]. unfold year_cell. rewrite Hna, (reads_iso v t Ht).
  simpl. rewrite Hiso. simpl. by rewrite IH.
Qed.

Lemma withdrawal_data_parsed : parsed to_datetime withdrawal_data year_table.
Proof.
  unfold parsed, withdrawal_data, year_table, withdrawal_years.
  rewrite !fmap_cons.
  repeat (constructor; [split; [reflexivity|]; apply year_cells_iso;
    repeat (constructor; [repeat split; reflexivity|]); constructor|]).
  constructor.
Qed.

End EctManualTable.

Lemma year_table_NoDup : NoDup Ect.year_table.*1.
Proof. apply (bool_decide_unpack _). by vm_compute. Qed.

Lemma year_table_keys :
  Forall (fun entry : string * list (string * option value) =>
            ("Country" ∉ (entry.2).*1) /\ NoDup (entry.2).*1) Ect.year_table.
Proof. apply (bool_decide_unpack _). by vm_compute. Qed.

Lemma manual_update_found
    (table : list (string * list (string * option value)))
    (c : string) (cells : list (string * option value))
    (r : gmap string value) :
  (c, cells) ∈ table -> NoDup table.*1 -> Ect.country_is c r = true ->
  Ect.manual_update table r = Ect.apply_cells cells r.
Proof.
  induction table as [|[c' cells'] table IH]; intros Hin Hnd Hc.
  - by apply elem_of_nil in Hin.
  - rewrite fmap_cons in Hnd. apply NoDup_cons in Hnd as [Hfresh Hnd].
    apply elem_of_cons in Hin as [[= <- <-]|Hin].
    + unfold Ect.manual_update. simpl. by rewrite Hc.
    + rewrite manual_update_skip; [by apply IH|]. simpl.
      apply not_true_is_false. intros Hc'.
      apply Hfresh. rewrite (country_is_inj _ _ _ Hc' Hc).
      apply list_elem_of_fmap. by exists (c, cells).
Qed.

Lemma appended_rows_filter
    (table : list (string * list (string * option value))) (df : DataFrame) :
  Ect.appended_rows table df =
  (fun entry => Ect.new_row entry.1 entry.2)
    <$> filter (fun entry => Ect.has_country df entry.1 = false) table.
Proof.
  unfold Ect.appended_rows, Ect.has_country.
  induction table as [|entry table IH]; [done|].
  rewrite filter_cons.
  change (omap ?f (entry :: table)) with
    (match f entry with Some y => y :: omap f table | None => omap f table end).
  destruct (existsb (Ect.country_is entry.1) (rows df)) eqn:E.
  - rewrite IH, E. case_decide; [congruence|done].
  - rewrite IH, E. case_decide; [|congruence]. by rewrite fmap_cons.
Qed.

Lemma cells_of_keys (fields : list (string * Z)) :
  (Ect.cells_of fields).*1 = fields.*1.
Proof.
  unfold Ect.cells_of. rewrite <- list_fmap_compose.
  by apply list_fmap_ext.
Qed.

Lemma year_table_entry (c : string) (fields : list (string * Z)) :
  (c, fields) ∈ Ect.withdrawal_years ->
  (c, Ect.cells_of fields) ∈ Ect.year_table /\
  ("Country" ∉ fields.*1) /\ NoDup fields.*1.
Proof.
  intros Hin.
  assert (Ht : (c, Ect.cells_of fields) ∈ Ect.year_table).
  { unfold Ect.year_table. apply list_elem_of_fmap. by exists (c, fields). }
  split; [done|].
  pose proof year_table_keys as Hk. rewrite Forall_forall in Hk.
  specialize (Hk _ Ht). simpl in Hk. by rewrite cells_of_keys in Hk.
Qed.

(** C8: on every table with a Country column, and with a reader of
    [YYYY-MM-DD] dates, [update_dataframe_withdrawals] with the hand-made
    table returns the rows of the table, each through [manual_update],
    followed by one new row for each listed country that has no row.  A row
    of a country that is not listed is kept as it is; a row of a listed
    country holds the listed years in the listed fields and is unchanged in
    every other column; a new row holds the country, the listed years, and
    nothing else. *)
Theorem C8_update_dataframe_withdrawals
    (to_datetime : string -> option Pandas.stamp) (df : DataFrame) :
  (forall s t, Pandas.iso_date s = Some t -> to_datetime s = Some t) ->
  "Country" ∈ columns df ->
  exists df',
    Ect.update_dataframe_withdrawals to_datetime df Ect.withdrawal_data
      = Ok df' /\
    rows df' =
      (Ect.manual_update Ect.year_table <$> rows df) ++
      ((fun entry => Ect.new_row entry.1 entry.2) <$>
         filter (fun entry => Ect.has_country df entry.1 = false)
                Ect.year_table) /\
    (forall r,
       (forall c, c ∈ Ect.withdrawal_years.*1 -> Ect.country_is c r = false) ->
       Ect.manual_update Ect.year_table r = r) /\
    (forall r c fields,
       (c, fields) ∈ Ect.withdrawal_years -> Ect.country_is c r = true ->
       (forall key y, (key, y) ∈ fields ->
          Ect.manual_update Ect.year_table r !! key = Some (VInt y)) /\
       (forall key, key ∉ fields.*1 ->
          Ect.manual_update Ect.year_table r !! key = r !! key)) /\
    (forall c fields,
       (c, fields) ∈ Ect.withdrawal_years ->
       let r := Ect.new_row c (Ect.cells_of fields) in
       r !! "Country" = Some (VStr c) /\
       (forall key y, (key, y) ∈ fields -> r !! key = Some (VInt y)) /\
       (forall key, key <> "Country" -> key ∉ fields.*1 -> r !! key = None)).
Proof.
  intros Hiso Hc.
  destruct (update_rows to_datetime Ect.withdrawal_data Ect.year_table df)
    as (df' & Hu & Hr).
  { by apply withdrawal_data_parsed. }
  { apply year_table_NoDup. }
  { eapply Forall_impl; [apply year_table_keys|]. by intros ? [? _]. }
  { done. }
  exists df'. split; [done|]. split; [by rewrite Hr, appended_rows_filter|].
  split; [|split].
  - intros r Hr'. apply manual_update_none. intros entry He.
    unfold Ect.year_table in He.
    apply list_elem_of_fmap in He as (item & -> & Hi).
    apply Hr'. apply list_elem_of_fmap. by exists item.
  - intros r c fields Hin Hrc.
    destruct (year_table_entry c fields Hin) as (Ht & Hk & Hnd).
    rewrite (manual_update_found _ c (Ect.cells_of fields))
      by (done || apply year_table_NoDup).
    split.
    + intros key y Hy. apply apply_cells_lookup.
      * by rewrite cells_of_keys.
      * unfold Ect.cells_of. apply list_elem_of_fmap. by exists (key, y).
    + intros key Hkey. apply apply_cells_lookup_ne. by rewrite cells_of_keys.
  - intros c fields Hin r.
    destruct (year_table_entry c fields Hin) as (Ht & Hk & Hnd).
    unfold r, Ect.new_row. split; [|split].
    + rewrite apply_cells_lookup_ne by (by rewrite cells_of_keys).
      apply lookup_singleton_eq.
    + intros key y Hy. apply apply_cells_lookup.
      * by rewrite cells_of_keys.
      * unfold Ect.cells_of. apply list_elem_of_fmap. by exists (key, y).
    + intros key Hne Hkey.
      rewrite apply_cells_lookup_ne by (by rewrite cells_of_keys).
      by apply lookup_singleton_ne.
Qed.

Lemma C8_update_dataframe_withdrawals_witness :
  exists df',
    Ect.update_dataframe_withdrawals Pandas.iso_date Ect.example_frame
      Ect.withdrawal_data = Ok df' /\
    rows df' =
      (Ect.manual_update Ect.year_table <$> rows Ect.example_frame) ++
      ((fun entry => Ect.new_row entry.1 entry.2) <$>
         filter (fun entry => Ect.has_country Ect.example_frame entry.1 = false)
                Ect.year_table).
Proof.
  destruct (C8_update_dataframe_withdrawals Pandas.iso_date Ect.example_frame)
    as (df' & H1 & H2 & _).
  - intros s t H. exact H.
  - apply (bool_decide_unpack _). vm_compute. exact I.
  - exists df'. split; assumption.
Defined.

(** ** DRR: the last coercion of the year column *)

Section DrrYear.
Import Drr.

Variable to_numeric : string -> option Z.

Lemma astype_int_nan (col : list (option Z)) :
  None ∈ col -> astype_int col = Raise IntCastingNaNError.
Proof.
  induction col as [|[z|] col IH]; intros Hin.
  - by apply elem_of_nil in Hin.
  - apply elem_of_cons in Hin as [|Hin]; [done|].
    simpl. by rewrite (IH Hin).
  - done.
Qed.

Lemma astype_int_all (col : list (option Z)) (years : list Z) :
  col = Some <$> years -> astype_int col = Ok years.
Proof.
  intros ->. induction years as [|z years IH]; [done|].
  rewrite fmap_cons. simpl. by rewrite IH.
Qed.

(** When every year cell is a number the coercion returns the table with
    the integers. *)
Lemma coerce_year_numbers (final_df : DataFrame) (years : list Z) :
  "Year" ∈ columns final_df ->
  to_numeric_coerce to_numeric <$> column "Year" final_df = Some <$> years ->
  coerce_year to_numeric final_df =
  Ok (set_column "Year" ((fun z => Some (VInt z)) <$> years) final_df).
Proof.
  intros Hc Hy. unfold coerce_year. rewrite bool_decide_eq_true_2 by done.
  by rewrite (astype_int_all _ years Hy).
Qed.

End DrrYear.

(** C4 fails on the DRR script: when a year cell is a text that
    [pd.to_numeric] cannot read, the coercion makes it NaN and the
    [.astype(int)] that follows on the same line raises
    [IntCastingNaNError]; no missing value is produced. *)
Theorem C4_year_coercion_raises
    (to_numeric : string -> option Z) (final_df : DataFrame) (s : string) :
  "Year" ∈ columns final_df ->
  Some (VStr s) ∈ column "Year" final_df ->
  to_numeric s = None ->
  Drr.coerce_year to_numeric final_df = Raise IntCastingNaNError.
Proof.
  intros Hc Hs Hn. unfold Drr.coerce_year.
  rewrite bool_decide_eq_true_2 by done.
  rewrite astype_int_nan; [done|].
  apply list_elem_of_fmap. exists (Some (VStr s)). by split.
Qed.

Lemma C4_year_coercion_raises_witness :
  Drr.coerce_year Drr.read_numeral Drr.example_final_df
  = Raise IntCastingNaNError.
Proof.
  apply (C4_year_coercion_raises Drr.read_numeral Drr.example_final_df "n/a").
  - apply (bool_decide_unpack _). vm_compute. exact I.
  - apply (bool_decide_unpack _). vm_compute. exact I.
  - reflexivity.
Defined.

(** The MARPOL coercion of the date columns is total: a text that cannot
    be read becomes a missing year, and the row is kept. *)
Lemma marpol_convert_unreadable
    (to_datetime_year : string -> option Z) (p : Marpol.panel_row) (s : string) :
  Marpol.p_Signature p = Some s -> to_datetime_year s = None ->
  Marpol.d_Signature (Marpol.convert to_datetime_year p) = None.
Proof. intros Hs Hn. unfold Marpol.convert. simpl. by rewrite Hs. Qed.

(** ** DRR: the retry pass *)

Lemma elem_of_missing_codes (extracted : list Z) (c : Z) :
  c ∈ Drr.missing_codes extracted <-> 1 <= c < 194 /\ c ∉ extracted.
Proof.
  unfold Drr.missing_codes, range.
  rewrite elem_of_difference, !elem_of_list_to_set, elem_of_seqZ.
  intuition lia.
Qed.

Section DrrRetry.
Import Drr.

Context {browser : Type}.
Variable webdriver_Chrome : browser -> browser.
Variable driver_quit : browser -> browser.
Variable driver_get : Z -> browser -> browser.
Variable click_table_button : browser -> browser.
Variable select_year_2005 : browser -> browser.
Variable select_year_2024 : browser -> browser.
Variable select_subindicator : string -> browser -> browser.
Variable read_table :
  browser -> option (string * list (string * string)) * browser.
Variable key_order : list (list (option value)) -> list (list (option value)).

Let pass := scraping_pass webdriver_Chrome driver_quit driver_get
  click_table_button select_year_2005 select_year_2024 select_subindicator
  read_table key_order.
Let retry := retry_block webdriver_Chrome driver_quit driver_get
  click_table_button select_year_2005 select_year_2024 select_subindicator
  read_table key_order.

(** The retry block when the name it reads is bound: the retry pass is run
    on the codes of 1..193 that the first pass did not obtain, and when
    there is none the world is left as it is and the first table is the
    result. *)
Lemma retry_block_bound (obtained first full : string) (base_year : Z)
    (g : gmap string DataFrame) (df_obtained df_first : DataFrame)
    (w : world browser) :
  g !! obtained = Some df_obtained ->
  g !! first = Some df_first ->
  "Country_Code" ∈ columns df_obtained ->
  exists extracted,
    country_codes df_obtained = Ok extracted /\
    (missing_codes extracted = ∅ ->
     retry obtained first full base_year g w = (Ok (<[full := df_first]> g), w)) /\
    (missing_codes extracted <> ∅ ->
     retry obtained first full base_year g w =
     (pass base_year (elements (missing_codes extracted)) ≫= fun df_missing =>
      mret (<[full := concat df_first df_missing]> g)) w).
Proof.
  intros Ho Hf Hc. unfold country_codes.
  rewrite bool_decide_eq_true_2 by done. eexists. split; [done|].
  unfold retry, pass, retry_block, lookup_name. rewrite Ho, Hf. simpl.
  unfold country_codes. rewrite bool_decide_eq_true_2 by done.
  split; intros Hm.
  - unfold mbind, prog_bind, lift. simpl.
    by rewrite bool_decide_eq_true_2 by done.
  - unfold mbind at 1. unfold prog_bind, lift. simpl.
    rewrite bool_decide_eq_false_2 by done.
    unfold mbind, prog_bind.
    match goal with
    | |- context [scraping_pass ?a ?b ?c ?d ?e ?f ?g ?h ?i ?y ?l w] =>
        destruct (scraping_pass a b c d e f g h i y l w)
          as [[df_missing|err] w']
    end; done.
Qed.

End DrrRetry.

Section DrrPasses.
Import Drr.

Context {browser : Type}.
Variable webdriver_Chrome : browser -> browser.
Variable driver_quit : browser -> browser.
Variable driver_get : Z -> browser -> browser.
Variable click_table_button : browser -> browser.
Variable select_year_2005 : browser -> browser.
Variable select_year_2024 : browser -> browser.
Variable select_subindicator : string -> browser -> browser.
Variable read_table :
  browser -> option (string * list (string * string)) * browser.
Variable key_order : list (list (option value)) -> list (list (option value)).

Let pass := scraping_pass webdriver_Chrome driver_quit driver_get
  click_table_button select_year_2005 select_year_2024 select_subindicator
  read_table key_order.
Let first_2024 := first_pass_2024 webdriver_Chrome driver_quit driver_get
  click_table_button select_year_2005 select_year_2024 select_subindicator
  read_table key_order.
Let second_2024 := retry_2024 webdriver_Chrome driver_quit driver_get
  click_table_button select_year_2005 select_year_2024 select_subindicator
  read_table key_order.
Let first_2005 := first_pass_2005 webdriver_Chrome driver_quit driver_get
  click_table_button select_year_2005 select_year_2024 select_subindicator
  read_table key_order.
Let second_2005 := retry_2005 webdriver_Chrome driver_quit driver_get
  click_table_button select_year_2005 select_year_2024 select_subindicator
  read_table key_order.

(** The 2005 block does what the claim says: after a first pass that
    returns [df], the retry pass is given the codes of 1..193 that are not
    in [df]; when there is none, no page is requested and [df] is the
    result. *)
Lemma retry_2005_after_first_pass (df : DataFrame) (w w1 : world browser) :
  pass 2005 (range 1 194) w = (Ok df, w1) ->
  "Country_Code" ∈ columns df ->
  exists extracted,
    country_codes df = Ok extracted /\
    (forall c, c ∈ missing_codes extracted <-> 1 <= c < 194 /\ c ∉ extracted) /\
    (missing_codes extracted = ∅ ->
     (first_2005 ∅ ≫= second_2005) w =
     (Ok (<["full_df_2005" := df]> (<["df_2005" := df]> ∅)), w1)) /\
    (missing_codes extracted <> ∅ ->
     (first_2005 ∅ ≫= second_2005) w =
     (pass 2005 (elements (missing_codes extracted)) ≫= fun df_missing =>
      mret (<["full_df_2005" := concat df df_missing]> (<["df_2005" := df]> ∅)))
       w1).
Proof.
  intros Hp Hc.
  destruct (retry_block_bound webdriver_Chrome driver_quit driver_get
              click_table_button select_year_2005 select_year_2024
              select_subindicator read_table key_order
              "df_2005" "df_2005" "full_df_2005" 2005
              (<["df_2005" := df]> ∅) df df w1)
    as (extracted & He & Hnone & Hsome);
    [by rewrite lookup_insert_eq | by rewrite lookup_insert_eq | done |].
  exists extracted. split; [done|].
  split; [intros c; apply elem_of_missing_codes|].
  assert (Hfirst : first_2005 ∅ w = (Ok (<["df_2005" := df]> ∅), w1)).
  { unfold first_2005, first_pass_2005. unfold mbind at 1. unfold prog_bind.
    fold pass. by rewrite Hp. }
  split; intros Hm.
  - unfold mbind at 1. unfold prog_bind. rewrite Hfirst. by apply Hnone.
  - unfold mbind at 1. unfold prog_bind. rewrite Hfirst. by apply Hsome.
Qed.

(** C2 fails on the 2024 block: whatever table the first pass returns and
    binds to [df_2024], the retry block reads the name [final_df_2024],
    which the script never binds, and raises [NameError] before any set of
    missing codes is computed; the world is as the first pass left it, no
    retry pass is run. *)
Theorem C2_retry_2024_name_error (df : DataFrame) (w : world browser) :
  second_2024 (<["df_2024" := df]> ∅) w
    = (Raise (NameError "final_df_2024"), w).
Proof.
  unfold second_2024, retry_2024, retry_block.
  assert (Hname : lookup_name (<["df_2024" := df]> ∅) "final_df_2024"
                  = Raise (NameError "final_df_2024")).
  { unfold lookup_name. by rewrite lookup_insert_ne, lookup_empty. }
  rewrite Hname. reflexivity.
Qed.

(** Lines 177-195 as a whole, after a first pass that returns. *)
Lemma block_2024_after_first_pass (df : DataFrame) (w0 w : world browser) :
  pass 2024 (range 1 194) w0 = (Ok df, w) ->
  (first_2024 ∅ ≫= second_2024) w0 = (Raise (NameError "final_df_2024"), w).
Proof.
  intros Hp. unfold mbind at 1. unfold prog_bind.
  assert (first_2024 ∅ w0 = (Ok (<["df_2024" := df]> ∅), w)) as ->; [|done].
  unfold first_2024, first_pass_2024. unfold mbind at 1. unfold prog_bind.
  fold pass. by rewrite Hp.
Qed.

End DrrPasses.

(** ** DRR: the outer merge *)

Section DrrMergeRows.
Import Drr.

Lemma with_suffix_nil (sfx : string) (r : gmap string value) :
  with_suffix [] sfx r = r.
Proof.
  unfold with_suffix. rewrite <- (list_to_map_to_list r) at 2. f_equal.
  rewrite <- (list_fmap_id (map_to_list r)) at 2.
  apply list_fmap_ext. intros i [c v] _. simpl.
  unfold label_with_suffix. rewrite bool_decide_eq_false_2; [done|].
  apply not_elem_of_nil.
Qed.

Lemma filter_none {A} (P : A -> Prop) `{forall x, Decision (P x)} (l : list A) :
  (forall x, x ∈ l -> ~ P x) -> filter P l = [].
Proof.
  induction l as [|x l IH]; intros Hl; [done|].
  rewrite filter_cons, decide_False by (apply Hl; left).
  apply IH. intros y Hy. apply Hl. by right.
Qed.

Lemma matching_none (k : list (option value)) (l : list (gmap string value)) :
  k ∉ row_key <$> l -> matching k l = [].
Proof.
  intros Hk. apply filter_none. intros r Hr <-. apply Hk.
  apply list_elem_of_fmap. eauto.
Qed.

Lemma matching_unique (l : list (gmap string value)) (r : gmap string value) :
  NoDup (row_key <$> l) -> r ∈ l -> matching (row_key r) l = [r].
Proof.
  induction l as [|x l IH]; intros Hnd Hr.
  - by apply elem_of_nil in Hr.
  - rewrite fmap_cons in Hnd. apply NoDup_cons in Hnd as [Hx Hnd].
    unfold matching. rewrite filter_cons.
    apply elem_of_cons in Hr as [->|Hr].
    + rewrite decide_True by done. f_equal. by apply matching_none.
    + rewrite decide_False; [by apply IH|].
      intros Heq. apply Hx. rewrite Heq. apply list_elem_of_fmap. eauto.
Qed.

Lemma row_key_inj (l : list (gmap string value)) (a b : gmap string value) :
  NoDup (row_key <$> l) -> a ∈ l -> b ∈ l -> row_key a = row_key b -> a = b.
Proof.
  intros Hnd Ha Hb Heq.
  pose proof (matching_unique l a Hnd Ha) as H1.
  pose proof (matching_unique l b Hnd Hb) as H2.
  rewrite Heq, H2 in H1. congruence.
Qed.

Lemma row_key_lookup (a b : gmap string value) (c : string) :
  row_key a = row_key b -> c ∈ key_columns -> a !! c = b !! c.
Proof.
  unfold row_key, key_columns. simpl. intros [= H1 H2 H3] Hc.
  repeat (apply elem_of_cons in Hc as [->|Hc]; [done|]).
  by apply elem_of_nil in Hc.
Qed.

Lemma row_key_ext (a b : gmap string value) :
  (forall c, c ∈ key_columns -> a !! c = b !! c) -> row_key a = row_key b.
Proof.
  intros H. unfold row_key. apply list_fmap_ext. intros i c Hc.
  apply H. by eapply list_elem_of_lookup_2.
Qed.

Lemma lookup_union_same (a b : gmap string value) (c : string) :
  a !! c = b !! c -> (a ∪ b) !! c = a !! c.
Proof.
  intros H. rewrite lookup_union. rewrite <- H.
  by destruct (a !! c).
Qed.

Lemma lookup_union_left_missing (a b : gmap string value) (c : string) :
  a !! c = None -> (a ∪ b) !! c = b !! c.
Proof. intros H. rewrite lookup_union, H. by destruct (b !! c). Qed.

Lemma lookup_union_right_missing (a b : gmap string value) (c : string) :
  b !! c = None -> (a ∪ b) !! c = a !! c.
Proof. intros H. rewrite lookup_union, H. by destruct (a !! c). Qed.

Lemma row_key_union (a b : gmap string value) :
  row_key a = row_key b -> row_key (a ∪ b) = row_key a.
Proof.
  intros H. apply row_key_ext. intros c Hc.
  apply lookup_union_same. by apply row_key_lookup.
Qed.

(** With no key twice in either table, a key of either table gets one
    row: the union of its two rows, or its only row. *)
Lemma join_key_one (lrows rrows : list (gmap string value))
    (k : list (option value)) :
  NoDup (row_key <$> lrows) -> NoDup (row_key <$> rrows) ->
  k ∈ (row_key <$> lrows) ++ (row_key <$> rrows) ->
  (exists l r, l ∈ lrows /\ r ∈ rrows /\ row_key l = k /\ row_key r = k /\
               join_key lrows rrows k = [l ∪ r]) \/
  (exists l, l ∈ lrows /\ row_key l = k /\ (k ∉ row_key <$> rrows) /\
             join_key lrows rrows k = [l]) \/
  (exists r, r ∈ rrows /\ row_key r = k /\ (k ∉ row_key <$> lrows) /\
             join_key lrows rrows k = [r]).
Proof.
  intros Hl Hr Hk. unfold join_key.
  destruct (decide (k ∈ row_key <$> lrows)) as [Hkl|Hkl];
    destruct (decide (k ∈ row_key <$> rrows)) as [Hkr|Hkr].
  - apply list_elem_of_fmap in Hkl as (l & -> & Hlin).
    apply list_elem_of_fmap in Hkr as (r & Heq & Hrin).
    left. exists l, r. rewrite (matching_unique lrows l Hl Hlin).
    rewrite Heq, (matching_unique rrows r Hr Hrin). by repeat split.
  - apply list_elem_of_fmap in Hkl as (l & -> & Hlin).
    right. left. exists l. rewrite (matching_unique lrows l Hl Hlin).
    rewrite matching_none by done. by repeat split.
  - apply list_elem_of_fmap in Hkr as (r & -> & Hrin).
    right. right. exists r. rewrite (matching_unique rrows r Hr Hrin).
    rewrite matching_none by done. by repeat split.
  - apply elem_of_app in Hk as [|]; done.
Qed.

Lemma join_key_row_key (lrows rrows : list (gmap string value))
    (k : list (option value)) :
  NoDup (row_key <$> lrows) -> NoDup (row_key <$> rrows) ->
  k ∈ (row_key <$> lrows) ++ (row_key <$> rrows) ->
  exists m, join_key lrows rrows k = [m] /\ row_key m = k.
Proof.
  intros Hl Hr Hk.
  destruct (join_key_one lrows rrows k Hl Hr Hk)
    as [(l & r & _ & _ & Hkl & Hkr & ->)|[(l & _ & Hkl & _ & ->)
       |(r & _ & Hkr & _ & ->)]]; eexists; split; try done.
  rewrite row_key_union; congruence.
Qed.

Lemma bind_one_row (f : list (option value) -> list (gmap string value))
    (keys : list (list (option value))) :
  (forall k, k ∈ keys -> exists m, f k = [m] /\ row_key m = k) ->
  row_key <$> (keys ≫= f) = keys.
Proof.
  induction keys as [|k keys IH]; intros H; [done|].
  destruct (H k) as (m & Hm & Hk); [left|].
  rewrite bind_cons, Hm, fmap_app. simpl. rewrite Hk. f_equal.
  apply IH. intros k' Hk'. apply H. by right.
Qed.

End DrrMergeRows.

Section DrrMerge.
Import Drr.

Variable key_order : list (list (option value)) -> list (list (option value)).

(** Whatever the order, it lists the keys it is given. *)
Hypothesis key_order_perm : forall l, key_order l ≡ₚ l.

Variables left right : DataFrame.

(** The tables of two subindicators share the key columns and nothing
    else. *)
Hypothesis left_keys : Forall (fun c => c ∈ columns left) key_columns.
Hypothesis right_keys : Forall (fun c => c ∈ columns right) key_columns.
Hypothesis no_overlap :
  Forall (fun c => c ∈ columns right -> c ∈ key_columns) (columns left).
Hypothesis left_wf : well_formed left.
Hypothesis right_wf : well_formed right.

Lemma merge_ok : merge key_order left right = Ok (merge_outer key_order left right).
Proof.
  unfold merge. rewrite filter_none; [done|].
  intros c Hc [H|H]; apply H.
  - rewrite Forall_forall in left_keys. by apply left_keys.
  - rewrite Forall_forall in right_keys. by apply right_keys.
Qed.

Lemma merge_outer_rows :
  rows (merge_outer key_order left right) =
  key_order (remove_dups (keys_of left ++ keys_of right))
    ≫= join_key (rows left) (rows right).
Proof.
  unfold merge_outer, keys_of. simpl.
  rewrite filter_none.
  - assert (Hid : forall sfx (l : list (gmap string value)),
              with_suffix [] sfx <$> l = l).
    { intros sfx l. rewrite <- (list_fmap_id l) at 2.
      apply list_fmap_ext. intros. apply with_suffix_nil. }
    by rewrite !Hid.
  - intros c [Hc Hk]%list_elem_of_difference Hr.
    rewrite Forall_forall in no_overlap. by apply Hk, no_overlap.
Qed.

Lemma wf_lookup (df : DataFrame) (r : gmap string value) (c : string) :
  well_formed df -> r ∈ rows df -> c ∉ columns df -> r !! c = None.
Proof.
  intros Hwf Hr Hc. unfold well_formed in Hwf. rewrite Forall_forall in Hwf.
  specialize (Hwf r Hr). apply not_elem_of_dom. intros Hd.
  apply Hc. apply Hwf in Hd. by apply elem_of_list_to_set in Hd.
Qed.

Lemma left_only_column (c : string) :
  c ∈ columns left -> c ∉ key_columns -> c ∉ columns right.
Proof.
  intros Hc Hk Hr. rewrite Forall_forall in no_overlap.
  by apply Hk, no_overlap.
Qed.

Lemma right_only_column (c : string) :
  c ∈ columns right -> c ∉ key_columns -> c ∉ columns left.
Proof.
  intros Hc Hk Hl. rewrite Forall_forall in no_overlap.
  by apply Hk, (no_overlap c).
Qed.

Hypothesis left_unique : NoDup (keys_of left).
Hypothesis right_unique : NoDup (keys_of right).

Lemma merged_keys :
  keys_of (merge_outer key_order left right) =
  key_order (remove_dups (keys_of left ++ keys_of right)).
Proof.
  unfold keys_of at 1. rewrite merge_outer_rows. apply bind_one_row.
  intros k Hk. apply join_key_row_key; [done..|].
  by rewrite key_order_perm, elem_of_remove_dups in Hk.
Qed.

Lemma merged_row (m : gmap string value) :
  m ∈ rows (merge_outer key_order left right) ->
  (exists l r, l ∈ rows left /\ r ∈ rows right /\
               row_key l = row_key m /\ row_key r = row_key m /\ m = l ∪ r) \/
  (exists l, l ∈ rows left /\ (row_key m ∉ keys_of right) /\ m = l) \/
  (exists r, r ∈ rows right /\ (row_key m ∉ keys_of left) /\ m = r).
Proof.
  rewrite merge_outer_rows. intros (k & Hm & Hk)%list_elem_of_bind.
  rewrite key_order_perm, elem_of_remove_dups in Hk.
  destruct (join_key_one (rows left) (rows right) k left_unique right_unique Hk)
    as [(l & r & Hl & Hr & Hkl & Hkr & Hj)|[(l & Hl & Hkl & Hn & Hj)
       |(r & Hr & Hkr & Hn & Hj)]];
    rewrite Hj in Hm; apply list_elem_of_singleton in Hm as ->.
  - left. exists l, r. rewrite row_key_union by congruence.
    by repeat split; try congruence.
  - right. left. exists l. by rewrite Hkl.
  - right. right. exists r. by rewrite Hkr.
Qed.

Lemma merged_keys_NoDup : NoDup (keys_of (merge_outer key_order left right)).
Proof. rewrite merged_keys, key_order_perm. apply NoDup_remove_dups. Qed.

Lemma merged_keys_elem (k : list (option value)) :
  k ∈ keys_of (merge_outer key_order left right) <->
  k ∈ keys_of left \/ k ∈ keys_of right.
Proof.
  by rewrite merged_keys, key_order_perm, elem_of_remove_dups, elem_of_app.
Qed.

Lemma key_elem (df : DataFrame) (r : gmap string value) :
  r ∈ rows df -> row_key r ∈ keys_of df.
Proof. intros Hr. apply list_elem_of_fmap. eauto. Qed.

(** The cells of a row of the result. *)
Lemma merged_cells (m : gmap string value) :
  m ∈ rows (merge_outer key_order left right) ->
  (forall l c, l ∈ rows left -> row_key l = row_key m ->
               c ∈ columns left -> m !! c = l !! c) /\
  (forall r c, r ∈ rows right -> row_key r = row_key m ->
               c ∈ columns right -> m !! c = r !! c) /\
  (forall c, row_key m ∉ keys_of left -> c ∈ columns left ->
             c ∉ key_columns -> m !! c = None) /\
  (forall c, row_key m ∉ keys_of right -> c ∈ columns right ->
             c ∉ key_columns -> m !! c = None).
Proof.
  intros Hm.
  destruct (merged_row m Hm)
    as [(l0 & r0 & Hl0 & Hr0 & Hkl & Hkr & ->)|[(l0 & Hl0 & Hn & ->)
       |(r0 & Hr0 & Hn & ->)]].
  - repeat split.
    + intros l c Hl Hk Hc.
      rewrite (row_key_inj (rows left) l l0) by (done || congruence).
      destruct (decide (c ∈ key_columns)) as [Hkey|Hkey].
      * apply lookup_union_same. apply row_key_lookup; congruence.
      * apply lookup_union_right_missing.
        apply (wf_lookup right); [done..|]. by apply left_only_column.
    + intros r c Hr Hk Hc.
      rewrite (row_key_inj (rows right) r r0) by (done || congruence).
      destruct (decide (c ∈ key_columns)) as [Hkey|Hkey].
      * rewrite lookup_union_same; apply row_key_lookup; congruence.
      * apply lookup_union_left_missing.
        apply (wf_lookup left); [done..|]. by apply right_only_column.
    + intros c Hn. exfalso. apply Hn. rewrite <- Hkl. by apply key_elem.
    + intros c Hn. exfalso. apply Hn. rewrite <- Hkr. by apply key_elem.
  - repeat split.
    + intros l c Hl Hk Hc. by rewrite (row_key_inj (rows left) l l0).
    + intros r c Hr Hk Hc. exfalso. apply Hn. rewrite <- Hk.
      by apply key_elem.
    + intros c Hn'. exfalso. apply Hn'. by apply key_elem.
    + intros c _ Hc Hkey. apply (wf_lookup left); [done..|].
      by apply right_only_column.
  - repeat split.
    + intros l c Hl Hk Hc. exfalso. apply Hn. rewrite <- Hk.
      by apply key_elem.
    + intros r c Hr Hk Hc. by rewrite (row_key_inj (rows right) r r0).
    + intros c _ Hc Hkey. apply (wf_lookup right); [done..|].
      by apply left_only_column.
    + intros c Hn'. exfalso. apply Hn'. by apply key_elem.
Qed.

(** When the two tables have the same keys, the result has as many rows
    as each of them, and no row twice. *)
Lemma merged_same_keys :
  (forall k, k ∈ keys_of left <-> k ∈ keys_of right) ->
  List.length (rows (merge_outer key_order left right))
    = List.length (rows left) /\
  List.length (rows (merge_outer key_order left right))
    = List.length (rows right) /\
  NoDup (rows (merge_outer key_order left right)).
Proof.
  intros Hsame.
  assert (Hlen : List.length (rows (merge_outer key_order left right))
                 = List.length (remove_dups (keys_of left ++ keys_of right))).
  { rewrite <- (length_fmap row_key). fold (keys_of (merge_outer key_order left right)).
    by rewrite merged_keys, key_order_perm. }
  assert (Hl : remove_dups (keys_of left ++ keys_of right) ≡ₚ keys_of left).
  { apply NoDup_Permutation; [apply NoDup_remove_dups|done|].
    intros k. rewrite elem_of_remove_dups, elem_of_app.
    specialize (Hsame k). tauto. }
  assert (Hr : remove_dups (keys_of left ++ keys_of right) ≡ₚ keys_of right).
  { apply NoDup_Permutation; [apply NoDup_remove_dups|done|].
    intros k. rewrite elem_of_remove_dups, elem_of_app.
    specialize (Hsame k). tauto. }
  repeat split.
  - rewrite Hlen, Hl. unfold keys_of. by rewrite length_fmap.
  - rewrite Hlen, Hr. unfold keys_of. by rewrite length_fmap.
  - eapply (NoDup_fmap_1 row_key). apply merged_keys_NoDup.
Qed.

End DrrMerge.

(** The tables that [extract_table_data] makes of two different
    subindicators meet the conditions of the merge: they have the key
    columns and no other column in common, their records stay within their
    columns, and a table has a key twice only if the page lists a year
    twice. *)
Lemma table_frame_shape (country name : string) (code : Z)
    (table_rows : list (string * string)) :
  table_rows <> [] -> name ∉ Drr.key_columns ->
  let df := Drr.table_frame country name code table_rows in
  columns df = ["Country"; "Year"; name; "Country_Code"] /\
  Forall (fun c => c ∈ columns df) Drr.key_columns /\
  Drr.well_formed df /\
  (NoDup table_rows.*1 -> NoDup (Drr.keys_of df)).
Proof.
  intros Hne Hname df.
  assert (Hn : name <> "Country" /\ name <> "Year" /\ name <> "Country_Code").
  { unfold Drr.key_columns in Hname. rewrite !not_elem_of_cons in Hname.
    tauto. }
  destruct Hn as (Hn1 & Hn2 & Hn3).
  assert (Hdf : df = mkDF ["Country"; "Year"; name; "Country_Code"]
            ((fun yv : string * string =>
                <["Country_Code" := VInt code]>
                  (<[name := VStr yv.2]>
                     (<["Year" := VStr yv.1]>
                        {[ "Country" := VStr country ]})))
               <$> table_rows)).
  { unfold df, Drr.table_frame. by destruct table_rows. }
  rewrite Hdf. simpl. split; [done|]. split; [|split].
  - unfold Drr.key_columns.
    rewrite !Forall_cons, Forall_nil, !elem_of_cons. tauto.
  - unfold Drr.well_formed. simpl. apply Forall_fmap, Forall_forall.
    intros yv _ c. simpl. rewrite !dom_insert_L, dom_singleton_L.
    rewrite !elem_of_union, !elem_of_singleton. tauto.
  - intros Hnd. unfold Drr.keys_of. simpl. rewrite <- list_fmap_compose.
    assert (Hk : (Drr.row_key ∘ (fun yv : string * string =>
                <["Country_Code" := VInt code]>
                  (<[name := VStr yv.2]>
                     (<["Year" := VStr yv.1]>
                        {[ "Country" := VStr country ]})))) <$> table_rows
              = (fun y => [Some (VStr country); Some (VStr y); Some (VInt code)])
                  <$> table_rows.*1).
    { rewrite <- list_fmap_compose. apply list_fmap_ext. intros i yv _.
      unfold Drr.row_key, Drr.key_columns. simpl. by simplify_map_eq. }
    rewrite Hk. apply NoDup_fmap_2; [|done]. by intros y1 y2 [= ->].
Qed.

Lemma table_frames_no_overlap (c1 c2 n1 n2 : string) (k1 k2 : Z)
    (rows1 rows2 : list (string * string)) :
  n1 <> n2 -> rows1 <> [] -> rows2 <> [] ->
  Forall (fun c => c ∈ columns (Drr.table_frame c2 n2 k2 rows2) ->
                   c ∈ Drr.key_columns)
         (columns (Drr.table_frame c1 n1 k1 rows1)).
Proof.
  intros Hn H1 H2. destruct rows1; [done|]. destruct rows2; [done|].
  unfold Drr.key_columns. simpl.
  rewrite !Forall_cons, Forall_nil, !elem_of_cons, !elem_of_nil.
  intuition congruence.
Qed.

(** C5, as the code has it: for two tables that have the key columns and
    no other column in common, whose records stay within their columns,
    and in each of which no key triple occurs twice, the outer merge
    returns a table with exactly one row for each key triple of either
    table; a row holds, under the columns of each table, the cells of that
    table's row with the same key, and missing values under the other
    columns of a table that does not have the key; and when the two tables
    have the same key triples the result has as many rows as each of them
    and no row twice. *)
Theorem C5_outer_merge
    (key_order : list (list (option value)) -> list (list (option value)))
    (left right : DataFrame) :
  (forall l, key_order l ≡ₚ l) ->
  Forall (fun c => c ∈ columns left) Drr.key_columns ->
  Forall (fun c => c ∈ columns right) Drr.key_columns ->
  Forall (fun c => c ∈ columns right -> c ∈ Drr.key_columns) (columns left) ->
  Drr.well_formed left -> Drr.well_formed right ->
  NoDup (Drr.keys_of left) -> NoDup (Drr.keys_of right) ->
  exists merged,
    Drr.merge key_order left right = Ok merged /\
    NoDup (Drr.keys_of merged) /\
    (forall k, k ∈ Drr.keys_of merged <->
               k ∈ Drr.keys_of left \/ k ∈ Drr.keys_of right) /\
    (forall m, m ∈ rows merged ->
       (forall l c, l ∈ rows left -> Drr.row_key l = Drr.row_key m ->
                    c ∈ columns left -> m !! c = l !! c) /\
       (forall r c, r ∈ rows right -> Drr.row_key r = Drr.row_key m ->
                    c ∈ columns right -> m !! c = r !! c) /\
       (forall c, Drr.row_key m ∉ Drr.keys_of left -> c ∈ columns left ->
                  c ∉ Drr.key_columns -> m !! c = None) /\
       (forall c, Drr.row_key m ∉ Drr.keys_of right -> c ∈ columns right ->
                  c ∉ Drr.key_columns -> m !! c = None)) /\
    ((forall k, k ∈ Drr.keys_of left <-> k ∈ Drr.keys_of right) ->
       List.length (rows merged) = List.length (rows left) /\
       List.length (rows merged) = List.length (rows right) /\
       NoDup (rows merged)).
Proof.
  intros Hperm Hlk Hrk Hno Hlwf Hrwf Hlu Hru.
  exists (Drr.merge_outer key_order left right).
  split; [by apply merge_ok|].
  split; [by apply merged_keys_NoDup|].
  split; [by apply merged_keys_elem|].
  split; [intros m; by apply merged_cells|].
  by apply merged_same_keys.
Qed.

Lemma C5_outer_merge_witness :
  exists merged,
    Drr.merge (fun l => l) Drr.example_left Drr.example_right = Ok merged /\
    NoDup (Drr.keys_of merged) /\
    List.length (rows merged) = List.length (rows Drr.example_left).
Proof.
  destruct (C5_outer_merge (fun l => l) Drr.example_left Drr.example_right)
    as (merged & Hm & Hnd & _ & _ & Hsame).
  - intros l. reflexivity.
  - apply (bool_decide_unpack _). vm_compute. exact I.
  - apply (bool_decide_unpack _). vm_compute. exact I.
  - apply (bool_decide_unpack _). vm_compute. exact I.
  - apply (bool_decide_unpack _). vm_compute. exact I.
  - apply (bool_decide_unpack _). vm_compute. exact I.
  - apply (bool_decide_unpack _). vm_compute. exact I.
  - apply (bool_decide_unpack _). vm_compute. exact I.
  - exists merged. split; [exact Hm|]. split; [exact Hnd|].
    apply Hsame. intros k. reflexivity.
Defined.

(** C5 as the specification words it fails when a partial table holds a
    key triple twice: the page of Chile lists the year 2015 twice for the
    first subindicator, and the merge with the table of the second
    subindicator has two rows for that one key. *)
Lemma C5_counterexample :
  exists merged,
    Drr.merge (fun l => l) Drr.example_left_twice Drr.example_right
      = Ok merged /\
    Drr.keys_of Drr.example_right
      = [[Some (VStr "Chile"); Some (VStr "2015"); Some (VInt 35)];
         [Some (VStr "Chile"); Some (VStr "2016"); Some (VInt 35)]] /\
    Drr.keys_of merged
      = [[Some (VStr "Chile"); Some (VStr "2015"); Some (VInt 35)];
         [Some (VStr "Chile"); Some (VStr "2015"); Some (VInt 35)];
         [Some (VStr "Chile"); Some (VStr "2016"); Some (VInt 35)]] /\
    ~ NoDup (Drr.keys_of merged).
Proof.
  eexists. split; [vm_compute; reflexivity|].
  split; [vm_compute; reflexivity|].
  split; [vm_compute; reflexivity|].
  intros H. apply (bool_decide_pack _) in H. vm_compute in H. exact H.
Qed.

(** ** The exported workbooks *)

Lemma to_excel_header (df : DataFrame) (name : string) :
  exists body, to_excel df name = Table name (columns df) body.
Proof. unfold to_excel. eauto. Qed.

Lemma no_readme_in_tables (wb : list Sheet) :
  Forall (fun sheet => exists title header body, sheet = Table title header body)
         wb ->
  ~ has_readme_sheet wb.
Proof.
  intros Hall (title & lines & line & Hin & _). rewrite Forall_forall in Hall.
  destruct (Hall _ Hin) as (? & ? & ? & ?). discriminate.
Qed.

(** C3, as the code has it.  The ECT and the DRR export write a workbook
    of exactly two sheets: a data sheet whose header row is the columns of
    the table in their order, and a sheet "Readme" with text that is not
    empty.  The LVC export writes the data sheet "Combined" and no other
    sheet.  The MARPOL export writes two data sheets, "raw data" and
    "panel data", each under the columns of its table, and no sheet of
    documentation. *)
Theorem C3_exported_workbooks :
  (forall df,
     let wb := Ect.save_to_excel df in
     List.length wb = 2%nat /\ has_data_sheet df wb /\ has_readme_sheet wb) /\
  (forall final_df,
     let wb := Drr.export final_df in
     List.length wb = 2%nat /\ has_data_sheet final_df wb /\
     has_readme_sheet wb) /\
  (forall combined_df,
     let wb := Lvc.export combined_df in
     wb = [to_excel combined_df "Combined"] /\
     has_data_sheet combined_df wb /\ ~ has_readme_sheet wb) /\
  (forall to_datetime_year combined,
     let wb := Marpol.save_to_excel to_datetime_year combined in
     let panel := Marpol.clean_panel_data to_datetime_year
                    (Marpol.generate_panel_data combined) in
     wb = [to_excel (Marpol.raw_frame combined) "raw data";
           to_excel panel "panel data"] /\
     has_data_sheet (Marpol.raw_frame combined) wb /\
     has_data_sheet panel wb /\
     columns panel = ["Country"; "Year"; "marpol_sign"; "marpol_effect"] /\
     ~ has_readme_sheet wb).
Proof.
  repeat split.
  - unfold has_data_sheet, Ect.save_to_excel, to_excel.
    do 2 eexists. apply elem_of_cons. right. apply elem_of_cons. by left.
  - unfold has_readme_sheet, Ect.save_to_excel.
    exists "Readme", Ect.readme_text, "so their withdrawal and signature dates did not appear on the website and were manually added.".
    split; [apply elem_of_cons; by left|]. split; [|done].
    apply (bool_decide_unpack _). vm_compute. exact I.
  - unfold has_data_sheet, Drr.export, to_excel.
    do 2 eexists. apply elem_of_cons. by left.
  - unfold has_readme_sheet, Drr.export.
    exists "Readme", [Drr.readme_text], Drr.readme_text.
    split; [apply elem_of_cons; right; apply elem_of_cons; by left|].
    split; [apply elem_of_cons; by left|]. by vm_compute.
  - unfold has_data_sheet, Lvc.export, to_excel.
    do 2 eexists. apply elem_of_cons. by left.
  - apply no_readme_in_tables. unfold Lvc.export, to_excel.
    repeat constructor. eauto.
  - unfold has_data_sheet, Marpol.save_to_excel, to_excel.
    do 2 eexists. apply elem_of_cons. by left.
  - unfold has_data_sheet, Marpol.save_to_excel, to_excel.
    do 2 eexists. apply elem_of_cons. right. apply elem_of_cons. by left.
  - apply no_readme_in_tables. unfold Marpol.save_to_excel, to_excel.
    repeat constructor; eauto.
Qed.

(** C3 as the specification words it fails on the LVC export: the
    workbook has one sheet, and no sheet of documentation. *)
Lemma C3_counterexample :
  let wb := Lvc.export Lvc.example_frame in
  ~ ((2 <= List.length wb)%nat /\ has_data_sheet Lvc.example_frame wb /\
     has_readme_sheet wb).
Proof.
  intros wb (Hlen & _ & _). unfold wb, Lvc.export in Hlen. simpl in Hlen. lia.
Qed.
